(** * FTPToGCSOperator: a shallow embedding of [FTPToGCSOperator.py]

    The operator copies (or moves) the files matching one FTP path to a
    Google Cloud Storage bucket.  This development embeds

    - the Python [str] methods the operator relies on ([startswith],
      slicing, [lstrip], [rstrip], [strip], [split], [join]);
    - the constructor [__init__] with its two static normalisers
      [_set_destination_path] and [_set_bucket_name];
    - the method [execute], as a program in a state-and-exception monad
      whose state is the history of calls made to the outside world (the
      Airflow secrets backend, the storage client, [ftplib]) together with
      the binding of the local variable [filename].

    Strings are Rocq [string]s.  Every test the operator makes on a
    character is a comparison with ['/'] or with the five ASCII characters of
    ["gs://"], so nothing depends on the alphabet being larger.

    The collaborators are not part of the operator.  A [World] stands for
    them: it decides for each call, knowing the calls made so far, whether the
    call returns or raises, and it supplies the connection record and the
    listing.  Every call to a collaborator may raise, [ftp.quit()] included,
    and what it raises is either an [Exception], which the handlers of
    [execute] catch, or an exception outside [Exception] (a
    [KeyboardInterrupt], a task timeout), which they let through.
    [BaseOperator.__init__] is Airflow's and is a parameter of [__init__].
    [self.log.info] is recorded in the history and never raises. *)

From Stdlib Require Import String Ascii List Bool Arith Lia.
Import ListNotations.
Open Scope string_scope.

(** ** Exceptions and results *)

(** The exceptions that can leave the operator's code.  [Foreign cause] is an
    exception raised by a library call that is an instance of [Exception];
    [ForeignBase cause] is one that is not (it derives from [BaseException]
    only: [KeyboardInterrupt], [SystemExit], Airflow's task timeout).
    [cause] is what [str(e)] gives. *)
Inductive exn : Type :=
| AirflowException (msg : string)
| UnboundLocalError (var : string)   (* a subclass of NameError *)
| IndexError
| Foreign (cause : string)
| ForeignBase (cause : string).

(** [isinstance(e, Exception)], the test of every [except Exception]. *)
Definition is_Exception (e : exn) : bool :=
  match e with
  | ForeignBase _ => false
  | _ => true
  end.

(** What a call to a collaborator raises: an [Exception] or not. *)
Inductive raised : Type :=
| Exc (cause : string)
| BaseExc (cause : string).

Definition thrown (r : raised) : exn :=
  match r with
  | Exc cause => Foreign cause
  | BaseExc cause => ForeignBase cause
  end.

Inductive result (A : Type) : Type :=
| Ok (a : A)
| Raise (e : exn).
Arguments Ok {A} a.
Arguments Raise {A} e.


(** ** Python string methods *)

Module PyStr.

(** [c in chars] *)
Fixpoint mem (c : ascii) (chars : string) : bool :=
  match chars with
  | EmptyString => false
  | String d rest => Ascii.eqb c d || mem c rest
  end.

(** [s.startswith(p)] *)
Definition startswith (s p : string) : bool := String.prefix p s.

(** [s.endswith(p)] for a one-character [p], used only in statements *)
Fixpoint ends_with_char (s : string) (c : ascii) : bool :=
  match s with
  | EmptyString => false
  | String d EmptyString => Ascii.eqb d c
  | String _ rest => ends_with_char rest c
  end.

(** [s[n:]] *)
Fixpoint slice_from (n : nat) (s : string) : string :=
  match n, s with
  | O, _ => s
  | S _, EmptyString => EmptyString
  | S m, String _ rest => slice_from m rest
  end.

(** [s.lstrip(chars)]: drop leading characters while they are in [chars] *)
Fixpoint lstrip (chars s : string) : string :=
  match s with
  | EmptyString => EmptyString
  | String c rest => if mem c chars then lstrip chars rest else s
  end.

(** [s.rstrip(chars)]: drop trailing characters while they are in [chars] *)
Fixpoint rstrip (chars s : string) : string :=
  match s with
  | EmptyString => EmptyString
  | String c rest =>
      match rstrip chars rest with
      | EmptyString => if mem c chars then EmptyString else String c EmptyString
      | kept => String c kept
      end
  end.

(** [s.strip(chars)] *)
Definition strip (chars s : string) : string := lstrip chars (rstrip chars s).

(** [s.split(sep)] for a separator of one character, which is how the
    operator calls it.  The result is never empty. *)
Fixpoint split (sep : ascii) (s : string) : list string :=
  match s with
  | EmptyString => [EmptyString]
  | String c rest =>
      if Ascii.eqb c sep then EmptyString :: split sep rest
      else match split sep rest with
           | seg :: segs => String c seg :: segs
           | [] => [String c EmptyString]
           end
  end.

(** [sep.join(parts)] *)
Definition join (sep : string) (parts : list string) : string :=
  String.concat sep parts.

(** [l[0:-1]] *)
Definition all_but_last {A} (l : list A) : list A := removelast l.

(** [l[-1]]; an empty list raises [IndexError] *)
Fixpoint item_last {A} (l : list A) : result A :=
  match l with
  | [] => Raise IndexError
  | [x] => Ok x
  | _ :: rest => item_last rest
  end.

(** [len(s) > 0] *)
Definition nonempty (s : string) : bool :=
  match s with
  | EmptyString => false
  | String _ _ => true
  end.

(** a run of [n] copies of [c] *)
Fixpoint replicate (n : nat) (c : ascii) : string :=
  match n with
  | O => EmptyString
  | S m => String c (replicate m c)
  end.

End PyStr.

(** ** The operator object *)

Record FTPToGCSOperator : Type := mkOperator {
  task_id : string;
  gcp_conn_id : string;
  impersonation_chain : option (string + list string);
  ftp_conn_id : string;
  move_object : bool;
  destination_path : string;
  destination_bucket : string;
  ftp_folder : string;
  ftp_file : string
}.

(** [_set_destination_path(path)], lines 62-67 *)
Definition _set_destination_path (path : option string) : string :=
  match path with
  | Some path =>
      let path := PyStr.rstrip "/" path in
      if PyStr.startswith path "/" then PyStr.lstrip "/" path else path
  | None => EmptyString
  end.

(** [_set_bucket_name(name)], lines 69-72 *)
Definition _set_bucket_name (name : string) : string :=
  let bucket :=
    if negb (PyStr.startswith name "gs://") then name
    else PyStr.slice_from 5 name in
  PyStr.strip "/" bucket.

(** [__init__], lines 36-60.  [BaseOperator___init__] stands for
    [super().__init__(task_id=task_id, **kwargs)] of lines 47-49, which is
    Airflow's: it returns, or raises (an [AirflowException] for a task id it
    does not accept, for instance), and what it raises leaves the
    constructor before any field is set. *)
Definition __init__ (BaseOperator___init__ : string -> result unit)
    (task_id ftp_conn_id source_path destination_bucket : string)
    (destination_path : option string) (gcp_conn_id : string)
    (move_object : bool) (impersonation_chain : option (string + list string))
  : result FTPToGCSOperator :=
  match BaseOperator___init__ task_id with
  | Raise e => Raise e
  | Ok _ =>
      let destination_path := _set_destination_path destination_path in
      let destination_bucket := _set_bucket_name destination_bucket in
      let temp := PyStr.split "/" source_path in
      let ftp_folder := PyStr.join "/" (PyStr.all_but_last temp) in
      match PyStr.item_last temp with
      | Raise e => Raise e
      | Ok ftp_file =>
          Ok (mkOperator task_id gcp_conn_id impersonation_chain ftp_conn_id
                move_object destination_path destination_bucket ftp_folder
                ftp_file)
      end
  end.

(** The default of the keyword argument [gcp_conn_id]. *)
Definition default_gcp_conn_id : string := "google_cloud_default".

(** [file_dest] as computed on lines 107-109 for the current [filename]. *)
Definition file_dest (self : FTPToGCSOperator) (filename : string) : string :=
  let file_dest := filename in
  if PyStr.nonempty (destination_path self)
  then destination_path self ++ "/" ++ file_dest
  else file_dest.

(** ** The outside world *)

(** What [Connection.get_connection_from_secrets] returns; [password] is what
    [get_password()] gives. *)
Record Connection : Type := mkConnection {
  host : string;
  login : string;
  password : string
}.

(** The calls [execute] makes to its collaborators, in the vocabulary of the
    source. *)
Inductive call : Type :=
| GetConnectionFromSecrets (conn_id : string)  (* line 78 *)
| StorageClient                                (* line 80 *)
| GetBucket (name : string)                    (* line 81 *)
| FtpConnect (hostname : string)               (* ftplib.FTP(c.host), line 84 *)
| FtpLogin (user passwd : string)              (* line 91 *)
| FtpCwd (dirname : string)                    (* line 97 *)
| FtpNlst (pattern : string)                   (* line 105 *)
| BucketBlob (key : string)                    (* line 112 *)
| BlobOpen (key : string)                      (* dest_blob.open("wb"), line 115 *)
| FtpRetrbinary (cmd : string)                 (* line 116 *)
| StreamClose (key : string)                   (* leaving the with block *)
| FtpDelete (name : string)                    (* line 120 *)
| FtpQuit                                      (* lines 93, 99, 122, 125 *)
| LogInfo (msg : string).                      (* self.log.info *)

(** One entry of the history: the call and, when it raised, what it
    raised. *)
Definition event : Type := (call * option raised)%type.

(** The world decides, from everything that has happened so far, whether a
    call raises, and supplies the values of the two calls whose result the
    operator reads.  Logging is observational and does not consult it. *)
Record World : Type := mkWorld {
  raises : list event -> call -> option raised;
  connection_of : string -> Connection;
  listing : string -> list string
}.

(** The state [execute] threads: the history of calls and the binding of the
    local variable [filename], the only local that a handler can read before
    any statement has assigned it. *)
Record Frame : Type := mkFrame {
  history : list event;
  filename : option string
}.

Definition initial_frame : Frame := mkFrame [] None.

Definition record_event (fr : Frame) (e : event) : Frame :=
  mkFrame (history fr ++ [e]) (filename fr).

(** [str(e)] *)
Definition str (e : exn) : string :=
  match e with
  | AirflowException msg => msg
  | UnboundLocalError var =>
      "cannot access local variable '" ++ var
        ++ "' where it is not associated with a value"
  | IndexError => "list index out of range"
  | Foreign cause => cause
  | ForeignBase cause => cause
  end.

(** ** The monad of [execute] *)

Definition M (A : Type) : Type := Frame -> result A * Frame.

Definition ret {A} (a : A) : M A := fun fr => (Ok a, fr).

Definition raise {A} (e : exn) : M A := fun fr => (Raise e, fr).

Definition bind {A B} (m : M A) (k : A -> M B) : M B :=
  fun fr =>
    match m fr with
    | (Ok a, fr') => k a fr'
    | (Raise e, fr') => (Raise e, fr')
    end.

Notation "x <- m ;; k" := (bind m (fun x => k))
  (at level 61, m at next level, right associativity).
Notation "m ;; k" := (bind m (fun _ => k))
  (at level 61, right associativity).

(** [try: body  except Exception as e: handler e]; an exception that is not
    an [Exception] is not handled. *)
Definition try_except {A} (body : M A) (handler : exn -> M A) : M A :=
  fun fr =>
    match body fr with
    | (Ok a, fr') => (Ok a, fr')
    | (Raise e, fr') =>
        if is_Exception e then handler e fr' else (Raise e, fr')
    end.

(** [try: body  except Exception as e: handler e  else: orelse]; an exception
    of [body] that is not an [Exception], and an exception of [orelse], are
    not handled. *)
Definition try_except_else {A B} (body : M A) (handler : exn -> M B)
    (orelse : M B) : M B :=
  fun fr =>
    match body fr with
    | (Ok _, fr') => orelse fr'
    | (Raise e, fr') =>
        if is_Exception e then handler e fr' else (Raise e, fr')
    end.

Section Execute.

Variable w : World.

(** A call to a collaborator: the world says whether it raises. *)
Definition invoke (c : call) : M unit :=
  fun fr =>
    match raises w (history fr) c with
    | None => (Ok tt, record_event fr (c, None))
    | Some r => (Raise (thrown r), record_event fr (c, Some r))
    end.

Definition log_info (msg : string) : M unit :=
  fun fr => (Ok tt, record_event fr (LogInfo msg, None)).

Definition get_connection_from_secrets (conn_id : string) : M Connection :=
  invoke (GetConnectionFromSecrets conn_id) ;; ret (connection_of w conn_id).

Definition nlst (pattern : string) : M (list string) :=
  invoke (FtpNlst pattern) ;; ret (listing w pattern).

(** The loop header binds [filename]. *)
Definition assign_filename (name : string) : M unit :=
  fun fr => (Ok tt, mkFrame (history fr) (Some name)).

(** Reading [filename] where no assignment has reached it. *)
Definition read_filename : M string :=
  fun fr =>
    match filename fr with
    | Some name => (Ok name, fr)
    | None => (Raise (UnboundLocalError "filename"), fr)
    end.

(** [with dest_blob.open("wb") as write_stream: body].  The stream is closed
    on the way out whether or not [body] raised; an exception of the close
    replaces the one in flight. *)
Definition with_open (key : string) (body : M unit) : M unit :=
  fun fr =>
    match invoke (BlobOpen key) fr with
    | (Raise e, fr1) => (Raise e, fr1)
    | (Ok _, fr1) =>
        let (r, fr2) := body fr1 in
        match invoke (StreamClose key) fr2 with
        | (Raise e', fr3) => (Raise e', fr3)
        | (Ok _, fr3) => (r, fr3)
        end
    end.

(** [for filename in names: body] *)
Fixpoint for_filename (names : list string) (body : string -> M unit)
  : M unit :=
  match names with
  | [] => ret tt
  | name :: rest =>
      assign_filename name ;; body name ;; for_filename rest body
  end.

(** The body of the loop, lines 107-120. *)
Definition transfer_one (self : FTPToGCSOperator) (filename : string)
  : M unit :=
  let file_dest := file_dest self filename in
  log_info ("File will be saved to " ++ destination_bucket self ++ "/"
              ++ file_dest) ;;
  invoke (BucketBlob file_dest) ;;
  log_info ("Downloading " ++ filename) ;;
  with_open file_dest (invoke (FtpRetrbinary ("RETR " ++ filename))) ;;
  if move_object self then
    log_info ("Deleting " ++ filename ++ " on FTP server") ;;
    invoke (FtpDelete filename)
  else ret tt.

(** [execute], lines 74-125. *)
Definition execute (self : FTPToGCSOperator) : M unit :=
  c <- get_connection_from_secrets (ftp_conn_id self) ;;
  invoke StorageClient ;;
  invoke (GetBucket (destination_bucket self)) ;;
  try_except_else
    (invoke (FtpConnect (host c)))
    (fun e => raise (AirflowException
                       ("Error connecting to " ++ host c ++ ": " ++ str e ++ " ")))
    (log_info ("*** Connected to HOST " ++ host c)) ;;
  try_except
    (invoke (FtpLogin (login c) (password c)))
    (fun e => invoke FtpQuit ;;
              raise (AirflowException ("Cannot login: " ++ str e ++ " "))) ;;
  try_except_else
    (invoke (FtpCwd (ftp_folder self)))
    (fun e => invoke FtpQuit ;;
              raise (AirflowException
                       ("Error in folder " ++ ftp_folder self ++ ": "
                          ++ str e ++ " ")))
    (log_info ("*** Changed to folder: " ++ ftp_folder self)) ;;
  try_except
    (names <- nlst (ftp_file self) ;;
     for_filename names (transfer_one self))
    (fun e => invoke FtpQuit ;;
              filename <- read_filename ;;
              raise (AirflowException
                       ("Error reading file " ++ filename ++ ": "
                          ++ str e ++ " "))) ;;
  invoke FtpQuit.

End Execute.

(** One run of the task: [execute] from a fresh frame. *)
Definition run (w : World) (self : FTPToGCSOperator) : result unit * list event :=
  let (r, fr) := execute w self initial_frame in (r, history fr).

Definition outcome (w : World) (self : FTPToGCSOperator) : result unit :=
  fst (run w self).

Definition trace (w : World) (self : FTPToGCSOperator) : list event :=
  snd (run w self).

(** ** Reading a history *)

Definition returned (e : event) : bool :=
  match snd e with
  | None => true
  | Some _ => false
  end.

Definition is_quit (e : event) : bool :=
  match fst e with
  | FtpQuit => true
  | _ => false
  end.

(** How many times [ftp.quit()] was called. *)
Definition quit_count (h : list event) : nat := length (filter is_quit h).

(** Whether [ftplib.FTP(host)] returned, that is, a connection was opened. *)
Definition connected (h : list event) : bool :=
  existsb (fun e => match e with
                    | (FtpConnect _, None) => true
                    | _ => false
                    end) h.

Definition pick {A} (sel : call -> option A) (h : list event) : list A :=
  flat_map (fun e => match sel (fst e) with
                     | Some a => [a]
                     | None => []
                     end) h.

(** The keys handed to [dest_bucket.blob], in order. *)
Definition blob_keys : list event -> list string :=
  pick (fun c => match c with BucketBlob key => Some key | _ => None end).

(** The keys for which a write stream was asked for, in order. *)
Definition opened_keys : list event -> list string :=
  pick (fun c => match c with BlobOpen key => Some key | _ => None end).

(** The commands handed to [ftp.retrbinary], in order. *)
Definition retr_cmds : list event -> list string :=
  pick (fun c => match c with FtpRetrbinary cmd => Some cmd | _ => None end).

(** The names handed to [ftp.delete], in order. *)
Definition deleted_names : list event -> list string :=
  pick (fun c => match c with FtpDelete name => Some name | _ => None end).

(** ** The shapes a history can take

    The relations below list, path by path, what one iteration of the loop,
    the whole loop and a whole run can leave in the history.  They are not
    part of the model: [transfer_one_shape], [for_filename_shape] and
    [run_shape] prove that the program above stays inside them. *)

Definition announce_events (self : FTPToGCSOperator) (name : string) : list event :=
  [(LogInfo ("File will be saved to " ++ destination_bucket self ++ "/"
               ++ file_dest self name), None)].

Definition download_events (name : string) : list event :=
  [(LogInfo ("Downloading " ++ name), None)].

Definition deleting_events (name : string) : list event :=
  [(LogInfo ("Deleting " ++ name ++ " on FTP server"), None)].


(** After the quit of a handler or of the last line: what leaves [execute]. *)
Definition after_quit (rq : option raised) (otherwise : result unit) : result unit :=
  match rq with
  | None => otherwise
  | Some r => Raise (thrown r)
  end.

(** The exception leaving a [with] block whose body raised [r] and whose
    stream close answered [rc]. *)
Definition after_close (rc : option raised) (r : raised) : exn :=
  match rc with
  | None => thrown r
  | Some r' => thrown r'
  end.

Inductive iteration (self : FTPToGCSOperator) (name : string)
  : result unit -> list event -> Prop :=
| it_blob_raises r :
    iteration self name (Raise (thrown r))
      (announce_events self name
         ++ [(BucketBlob (file_dest self name), Some r)])
| it_open_raises r :
    iteration self name (Raise (thrown r))
      (announce_events self name
         ++ [(BucketBlob (file_dest self name), None)]
         ++ download_events name
         ++ [(BlobOpen (file_dest self name), Some r)])
| it_retr_raises r rc :
    iteration self name (Raise (after_close rc r))
      (announce_events self name
         ++ [(BucketBlob (file_dest self name), None)]
         ++ download_events name
         ++ [(BlobOpen (file_dest self name), None);
             (FtpRetrbinary ("RETR " ++ name), Some r);
             (StreamClose (file_dest self name), rc)])
| it_close_raises r :
    iteration self name (Raise (thrown r))
      (announce_events self name
         ++ [(BucketBlob (file_dest self name), None)]
         ++ download_events name
         ++ [(BlobOpen (file_dest self name), None);
             (FtpRetrbinary ("RETR " ++ name), None);
             (StreamClose (file_dest self name), Some r)])
| it_copied :
    move_object self = false ->
    iteration self name (Ok tt)
      (announce_events self name
         ++ [(BucketBlob (file_dest self name), None)]
         ++ download_events name
         ++ [(BlobOpen (file_dest self name), None);
             (FtpRetrbinary ("RETR " ++ name), None);
             (StreamClose (file_dest self name), None)])
| it_delete_raises r :
    move_object self = true ->
    iteration self name (Raise (thrown r))
      (announce_events self name
         ++ [(BucketBlob (file_dest self name), None)]
         ++ download_events name
         ++ [(BlobOpen (file_dest self name), None);
             (FtpRetrbinary ("RETR " ++ name), None);
             (StreamClose (file_dest self name), None)]
         ++ deleting_events name
         ++ [(FtpDelete name, Some r)])
| it_moved :
    move_object self = true ->
    iteration self name (Ok tt)
      (announce_events self name
         ++ [(BucketBlob (file_dest self name), None)]
         ++ download_events name
         ++ [(BlobOpen (file_dest self name), None);
             (FtpRetrbinary ("RETR " ++ name), None);
             (StreamClose (file_dest self name), None)]
         ++ deleting_events name
         ++ [(FtpDelete name, None)]).

(** [looping self names before r after evs]: the loop over [names], entered
    with [filename] bound as [before], ends with result [r], leaves
    [filename] bound as [after] and adds [evs] to the history. *)
Inductive looping (self : FTPToGCSOperator)
  : list string -> option string -> result unit -> option string
    -> list event -> Prop :=
| loop_done before :
    looping self [] before (Ok tt) before []
| loop_next name rest before r after evs evs' :
    iteration self name (Ok tt) evs ->
    looping self rest (Some name) r after evs' ->
    looping self (name :: rest) before r after (evs ++ evs')
| loop_abort name rest before e evs :
    iteration self name (Raise e) evs ->
    looping self (name :: rest) before (Raise e) (Some name) evs.

(** The calls before the connect, all returning. *)
Definition setup_events (self : FTPToGCSOperator) : list event :=
  [(GetConnectionFromSecrets (ftp_conn_id self), None);
   (StorageClient, None);
   (GetBucket (destination_bucket self), None)].

Definition connect_events (c : Connection) : list event :=
  [(FtpConnect (host c), None);
   (LogInfo ("*** Connected to HOST " ++ host c), None)].

Definition session_events (self : FTPToGCSOperator) (c : Connection) : list event :=
  setup_events self ++ connect_events c
    ++ [(FtpLogin (login c) (password c), None);
        (FtpCwd (ftp_folder self), None);
        (LogInfo ("*** Changed to folder: " ++ ftp_folder self), None)].

(** The end of a run whose call [c] raised [r] in a [try] with the handler
    [except Exception: ftp.quit(); raise AirflowException(msg)], the history
    being [h] before [c]: an [Exception] is handled, the quit is called and
    answers what the world says, and anything else leaves at once. *)
Definition handled_result (w : World) (h : list event) (c : call) (r : raised)
    (wrapped : result unit) : result unit :=
  match r with
  | Exc _ => after_quit (raises w (h ++ [(c, Some r)]) FtpQuit) wrapped
  | BaseExc cause => Raise (ForeignBase cause)
  end.

Definition handled_events (w : World) (h : list event) (c : call) (r : raised)
  : list event :=
  match r with
  | Exc _ => h ++ [(c, Some r); (FtpQuit, raises w (h ++ [(c, Some r)]) FtpQuit)]
  | BaseExc _ => h ++ [(c, Some r)]
  end.

Inductive run_path (w : World) (self : FTPToGCSOperator)
  : result unit -> list event -> Prop :=
| path_secrets_raise r :
    run_path w self (Raise (thrown r))
      [(GetConnectionFromSecrets (ftp_conn_id self), Some r)]
| path_client_raises r :
    run_path w self (Raise (thrown r))
      [(GetConnectionFromSecrets (ftp_conn_id self), None);
       (StorageClient, Some r)]
| path_bucket_raises r :
    run_path w self (Raise (thrown r))
      [(GetConnectionFromSecrets (ftp_conn_id self), None);
       (StorageClient, None);
       (GetBucket (destination_bucket self), Some r)]
| path_connect_raises r :
    let c := connection_of w (ftp_conn_id self) in
    run_path w self
      (match r with
       | Exc cause =>
           Raise (AirflowException
                    ("Error connecting to " ++ host c ++ ": " ++ cause ++ " "))
       | BaseExc cause => Raise (ForeignBase cause)
       end)
      (setup_events self ++ [(FtpConnect (host c), Some r)])
| path_login_raises r :
    let c := connection_of w (ftp_conn_id self) in
    let h := (setup_events self ++ connect_events c)%list in
    run_path w self
      (handled_result w h (FtpLogin (login c) (password c)) r
         (Raise (AirflowException ("Cannot login: " ++ str (thrown r) ++ " "))))
      (handled_events w h (FtpLogin (login c) (password c)) r)
| path_cwd_raises r :
    let c := connection_of w (ftp_conn_id self) in
    let h := (setup_events self ++ connect_events c
                ++ [(FtpLogin (login c) (password c), None)])%list in
    run_path w self
      (handled_result w h (FtpCwd (ftp_folder self)) r
         (Raise (AirflowException
                   ("Error in folder " ++ ftp_folder self ++ ": "
                      ++ str (thrown r) ++ " "))))
      (handled_events w h (FtpCwd (ftp_folder self)) r)
| path_nlst_raises r :
    let c := connection_of w (ftp_conn_id self) in
    run_path w self
      (handled_result w (session_events self c) (FtpNlst (ftp_file self)) r
         (Raise (UnboundLocalError "filename")))
      (handled_events w (session_events self c) (FtpNlst (ftp_file self)) r)
| path_loop_raises e name evs :
    let c := connection_of w (ftp_conn_id self) in
    let h := (session_events self c
                ++ [(FtpNlst (ftp_file self), None)] ++ evs)%list in
    looping self (listing w (ftp_file self)) None (Raise e) (Some name) evs ->
    is_Exception e = true ->
    run_path w self
      (after_quit (raises w h FtpQuit)
         (Raise (AirflowException
                   ("Error reading file " ++ name ++ ": " ++ str e ++ " "))))
      (h ++ [(FtpQuit, raises w h FtpQuit)])
| path_loop_interrupted e name evs :
    let c := connection_of w (ftp_conn_id self) in
    looping self (listing w (ftp_file self)) None (Raise e) (Some name) evs ->
    is_Exception e = false ->
    run_path w self (Raise e)
      (session_events self c ++ [(FtpNlst (ftp_file self), None)] ++ evs)
| path_complete after evs :
    let c := connection_of w (ftp_conn_id self) in
    let h := (session_events self c
                ++ [(FtpNlst (ftp_file self), None)] ++ evs)%list in
    looping self (listing w (ftp_file self)) None (Ok tt) after evs ->
    run_path w self (after_quit (raises w h FtpQuit) (Ok tt))
      (h ++ [(FtpQuit, raises w h FtpQuit)]).

(** ** The wording of the specification, for comparison *)

(** DestinationKey: prefix, ["/"] and name when the prefix is non-empty, else
    the bare name. *)
Definition DestinationKey (destinationPrefix name : string) : string :=
  if String.eqb destinationPrefix EmptyString then name
  else destinationPrefix ++ "/" ++ name.

(** normalizeDestinationPrefix as worded: all trailing slashes, then a single
    leading slash. *)
Definition spec_normalizeDestinationPrefix (raw : option string) : string :=
  match raw with
  | None => EmptyString
  | Some p =>
      match PyStr.rstrip "/" p with
      | String "/" rest => rest
      | stripped => stripped
      end
  end.

(** ** Sample worlds and operators *)

Definition sample_connection : Connection :=
  mkConnection "ftp.example.org" "user" "secret".

(** A world in which the listing returns [names] and a call raises exactly
    what [fails] gives for it, whatever happened before. *)
Definition world_raising (fails : call -> option raised) (names : list string)
  : World :=
  mkWorld (fun _ c => fails c) (fun _ => sample_connection) (fun _ => names).

(** The same, every exception being an [Exception] with the given cause. *)
Definition world_of (fails : call -> option string) (names : list string) : World :=
  world_raising (fun c => option_map Exc (fails c)) names.



Definition retr_interrupted (cause : string) (c : call) : option raised :=
  match c with
  | FtpRetrbinary _ => Some (BaseExc cause)
  | _ => None
  end.

(** [BaseOperator.__init__] accepting every task id, and one refusing them
    all. *)
Definition accepts_all (task_id : string) : result unit := Ok tt.

Definition refuses_all (task_id : string) : result unit :=
  Raise (AirflowException "invalid task_id").

Definition nothing_fails (c : call) : option string := None.

Definition retr_fails (cmd cause : string) (c : call) : option string :=
  match c with
  | FtpRetrbinary cmd' => if String.eqb cmd cmd' then Some cause else None
  | _ => None
  end.





Definition sample_operator (move : bool) : FTPToGCSOperator :=
  mkOperator "ftp_to_gcs" default_gcp_conn_id None "ftp_default" move
    "in" "bucket" "out" "*.csv".

(** [(self.ftp_folder, self.ftp_file)] of the object a constructor call
    returned. *)
Definition source_parts (r : result FTPToGCSOperator) : result (string * string) :=
  match r with
  | Ok self => Ok (ftp_folder self, ftp_file self)
  | Raise e => Raise e
  end.


(** The calls made inside the loop. *)
Definition loop_call (e : event) : bool :=
  match fst e with
  | LogInfo _ | BucketBlob _ | BlobOpen _ | FtpRetrbinary _
  | StreamClose _ | FtpDelete _ => true
  | _ => false
  end.

(** ** Further readings of a history *)

(** The keys whose write stream was opened, that is, for which
    [dest_blob.open("wb")] returned. *)
Definition opened_streams (h : list event) : list string :=
  flat_map (fun e => match e with
                     | (BlobOpen key, None) => [key]
                     | _ => []
                     end) h.

(** The keys whose write stream was closed on leaving the [with] block. *)
Definition closed_streams : list event -> list string :=
  pick (fun c => match c with StreamClose key => Some key | _ => None end).

(** The calls made before the FTP server is contacted, lines 78-81. *)
Definition setup_call (c : call) : bool :=
  match c with
  | GetConnectionFromSecrets _ | StorageClient | GetBucket _ => true
  | _ => false
  end.

(** The calls to the FTP server. *)
Definition ftp_call (c : call) : bool :=
  match c with
  | FtpConnect _ | FtpLogin _ _ | FtpCwd _ | FtpNlst _ | FtpRetrbinary _
  | FtpDelete _ | FtpQuit => true
  | _ => false
  end.

(** The calls that handle one listed file, lines 112-120. *)
Definition transfer_call (c : call) : bool :=
  match c with
  | BucketBlob _ | BlobOpen _ | FtpRetrbinary _ | StreamClose _
  | FtpDelete _ => true
  | _ => false
  end.

Definition bucket_fails (cause : string) (c : call) : option string :=
  match c with
  | GetBucket _ => Some cause
  | _ => None
  end.

Definition quit_fails (cause : string) (c : call) : option string :=
  match c with
  | FtpQuit => Some cause
  | _ => None
  end.

Definition open_fails (key cause : string) (c : call) : option string :=
  match c with
  | BlobOpen key' => if String.eqb key key' then Some cause else None
  | _ => None
  end.

Definition close_fails (key cause : string) (c : call) : option string :=
  match c with
  | StreamClose key' => if String.eqb key key' then Some cause else None
  | _ => None
  end.

(** The end of an iteration that reaches the delete of [name]: the retrieve
    and the close of the write stream have returned, the delete answers
    [rd]. *)
Definition delete_tail (self : FTPToGCSOperator) (name : string)
    (rd : option raised) : list event :=
  [(FtpRetrbinary ("RETR " ++ name), None);
   (StreamClose (file_dest self name), None);
   (LogInfo ("Deleting " ++ name ++ " on FTP server"), None);
   (FtpDelete name, rd)].



(** * The model at work *)

Example strip_examples :
  PyStr.strip "/" "//a/b//" = "a/b"
  /\ PyStr.rstrip "/" "a//" = "a"
  /\ PyStr.lstrip "/" "//a" = "a"
  /\ PyStr.strip "/" "///" = EmptyString.
Proof. repeat split. Qed.

Example split_examples :
  PyStr.split "/" "a//b/" = ["a"; EmptyString; "b"; EmptyString]
  /\ PyStr.split "/" EmptyString = [EmptyString]
  /\ PyStr.join "/" ["a"; "b"] = "a/b".
Proof. repeat split. Qed.

Example init_example :
  __init__ accepts_all "ftp_to_gcs" "ftp_default" "out/*.csv" "gs://bucket/"
    (Some "/in/") default_gcp_conn_id true None
  = Ok (sample_operator true)
  /\ __init__ refuses_all "ftp_to_gcs" "ftp_default" "out/*.csv" "gs://bucket/"
       (Some "/in/") default_gcp_conn_id true None
     = Raise (AirflowException "invalid task_id").
Proof. split; reflexivity. Qed.

(** A move of two files in a world where nothing fails. *)
Example run_moves_two_files :
  run (world_of nothing_fails ["a.csv"; "b.csv"]) (sample_operator true)
  = (Ok tt,
     [(GetConnectionFromSecrets "ftp_default", None);
      (StorageClient, None);
      (GetBucket "bucket", None);
      (FtpConnect "ftp.example.org", None);
      (LogInfo "*** Connected to HOST ftp.example.org", None);
      (FtpLogin "user" "secret", None);
      (FtpCwd "out", None);
      (LogInfo "*** Changed to folder: out", None);
      (FtpNlst "*.csv", None);
      (LogInfo "File will be saved to bucket/in/a.csv", None);
      (BucketBlob "in/a.csv", None);
      (LogInfo "Downloading a.csv", None);
      (BlobOpen "in/a.csv", None);
      (FtpRetrbinary "RETR a.csv", None);
      (StreamClose "in/a.csv", None);
      (LogInfo "Deleting a.csv on FTP server", None);
      (FtpDelete "a.csv", None);
      (LogInfo "File will be saved to bucket/in/b.csv", None);
      (BucketBlob "in/b.csv", None);
      (LogInfo "Downloading b.csv", None);
      (BlobOpen "in/b.csv", None);
      (FtpRetrbinary "RETR b.csv", None);
      (StreamClose "in/b.csv", None);
      (LogInfo "Deleting b.csv on FTP server", None);
      (FtpDelete "b.csv", None);
      (FtpQuit, None)]).
Proof. reflexivity. Qed.

(** The retrieve of the second of three files raises: the first file has been
    moved, the write stream of the second was opened and closed, the third is
    not touched. *)
Example run_second_retrieve_fails :
  outcome (world_of (retr_fails "RETR b.csv" "426") ["a.csv"; "b.csv"; "c.csv"])
    (sample_operator true)
  = Raise (AirflowException "Error reading file b.csv: 426 ")
  /\ opened_keys
       (trace (world_of (retr_fails "RETR b.csv" "426") ["a.csv"; "b.csv"; "c.csv"])
          (sample_operator true))
     = ["in/a.csv"; "in/b.csv"]
  /\ deleted_names
       (trace (world_of (retr_fails "RETR b.csv" "426") ["a.csv"; "b.csv"; "c.csv"])
          (sample_operator true))
     = ["a.csv"]
  /\ quit_count
       (trace (world_of (retr_fails "RETR b.csv" "426") ["a.csv"; "b.csv"; "c.csv"])
          (sample_operator true))
     = 1.
Proof. repeat split. Qed.

(** * Facts about the string methods *)

Section StringFacts.

Lemma append_assoc (a b c : string) : (a ++ b) ++ c = a ++ (b ++ c).
Proof.
  induction a as [|x a IH]; simpl; [reflexivity | now rewrite IH].
Qed.

Lemma append_empty_r (a : string) : a ++ EmptyString = a.
Proof.
  induction a as [|x a IH]; simpl; [reflexivity | now rewrite IH].
Qed.

Lemma mem_slash (c : ascii) : PyStr.mem c "/" = Ascii.eqb c "/".
Proof. simpl. apply orb_false_r. Qed.

Lemma startswith_slash_cons (c : ascii) (s : string) :
  PyStr.startswith (String c s) "/" = Ascii.eqb c "/".
Proof.
  unfold PyStr.startswith. cbn [String.prefix].
  destruct (ascii_dec "/" c) as [E|N].
  - subst c. destruct s; reflexivity.
  - symmetry. apply Ascii.eqb_neq. congruence.
Qed.

Lemma prefix_app (p s t : string) :
  String.prefix p s = true -> String.prefix p (s ++ t) = true.
Proof.
  revert s. induction p as [|a p IH]; intros s H.
  - destruct (s ++ t); reflexivity.
  - destruct s as [|b s]; cbn [String.prefix append] in *; [discriminate|].
    destruct (ascii_dec a b); [auto | discriminate].
Qed.

Lemma prefix_split (p s : string) :
  String.prefix p s = true -> exists rest, s = p ++ rest.
Proof.
  revert s. induction p as [|a p IH]; intros s H.
  - exists s. reflexivity.
  - destruct s as [|b s]; cbn [String.prefix] in H; [discriminate|].
    destruct (ascii_dec a b) as [E|N]; [|discriminate].
    destruct (IH s H) as [rest Hr]. exists rest. simpl. congruence.
Qed.

Lemma lstrip_run (s : string) :
  exists a, s = PyStr.replicate a "/" ++ PyStr.lstrip "/" s
            /\ PyStr.startswith (PyStr.lstrip "/" s) "/" = false.
Proof.
  induction s as [|c s IH].
  - exists 0. split; reflexivity.
  - cbn [PyStr.lstrip]. rewrite mem_slash.
    destruct (Ascii.eqb c "/") eqn:E.
    + apply Ascii.eqb_eq in E. subst c.
      destruct IH as [a [Hs Hn]]. exists (S a). simpl.
      split; [congruence | exact Hn].
    + exists 0. split; [reflexivity|].
      rewrite startswith_slash_cons. exact E.
Qed.

Lemma lstrip_id (s : string) :
  PyStr.startswith s "/" = false -> PyStr.lstrip "/" s = s.
Proof.
  destruct s as [|c s]; [reflexivity|].
  rewrite startswith_slash_cons. intros E.
  cbn [PyStr.lstrip]. rewrite mem_slash, E. reflexivity.
Qed.

Lemma ends_with_char_cons (c d : ascii) (s : string) :
  PyStr.ends_with_char (String c s) d =
    match s with
    | EmptyString => Ascii.eqb c d
    | _ => PyStr.ends_with_char s d
    end.
Proof. destruct s; reflexivity. Qed.

Lemma rstrip_run (s : string) :
  exists b, s = PyStr.rstrip "/" s ++ PyStr.replicate b "/"
            /\ PyStr.ends_with_char (PyStr.rstrip "/" s) "/" = false.
Proof.
  induction s as [|c s IH].
  - exists 0. split; reflexivity.
  - destruct IH as [b [Hs Hn]]. cbn [PyStr.rstrip].
    destruct (PyStr.rstrip "/" s) as [|d kept] eqn:R.
    + rewrite mem_slash. destruct (Ascii.eqb c "/") eqn:E.
      * apply Ascii.eqb_eq in E. subst c. exists (S b).
        simpl in *. split; [congruence | reflexivity].
      * exists b. simpl in *. split; [congruence | exact E].
    + exists b. split.
      * simpl in *. congruence.
      * rewrite ends_with_char_cons. exact Hn.
Qed.

Lemma rstrip_id (s : string) :
  PyStr.ends_with_char s "/" = false -> PyStr.rstrip "/" s = s.
Proof.
  induction s as [|c s IH]; [reflexivity|].
  rewrite ends_with_char_cons. intros H. cbn [PyStr.rstrip].
  destruct s as [|d s'].
  - simpl. rewrite orb_false_r, H. reflexivity.
  - rewrite (IH H). reflexivity.
Qed.

Lemma rstrip_all_slashes (n : nat) :
  PyStr.rstrip "/" (PyStr.replicate n "/") = EmptyString.
Proof.
  induction n as [|n IH]; [reflexivity|].
  simpl PyStr.replicate. cbn [PyStr.rstrip]. rewrite IH. reflexivity.
Qed.

Lemma lstrip_keeps_end (s : string) :
  PyStr.ends_with_char s "/" = false ->
  PyStr.ends_with_char (PyStr.lstrip "/" s) "/" = false.
Proof.
  induction s as [|c s IH]; [reflexivity|].
  intros H. cbn [PyStr.lstrip]. rewrite mem_slash.
  destruct (Ascii.eqb c "/") eqn:E; [|exact H].
  apply IH. rewrite ends_with_char_cons in H.
  destruct s; [congruence | exact H].
Qed.

(** What [strip("/")] returns: the argument without its leading and its
    trailing run of slashes. *)
Lemma strip_slashes (s : string) :
  exists a b,
    s = PyStr.replicate a "/" ++ PyStr.strip "/" s ++ PyStr.replicate b "/"
    /\ PyStr.startswith (PyStr.strip "/" s) "/" = false
    /\ PyStr.ends_with_char (PyStr.strip "/" s) "/" = false.
Proof.
  unfold PyStr.strip.
  destruct (rstrip_run s) as [b [Hs Hb]].
  destruct (lstrip_run (PyStr.rstrip "/" s)) as [a [Hr Ha]].
  exists a, b. split; [|split].
  - rewrite <- append_assoc, <- Hr. exact Hs.
  - exact Ha.
  - apply lstrip_keeps_end. exact Hb.
Qed.

Lemma strip_id (s : string) :
  PyStr.startswith s "/" = false ->
  PyStr.ends_with_char s "/" = false ->
  PyStr.strip "/" s = s.
Proof.
  intros Hl Hr. unfold PyStr.strip. rewrite (rstrip_id s Hr).
  apply lstrip_id. exact Hl.
Qed.

Lemma set_destination_path_strip (p : string) :
  _set_destination_path (Some p) = PyStr.strip "/" p.
Proof.
  unfold _set_destination_path, PyStr.strip.
  destruct (PyStr.startswith (PyStr.rstrip "/" p) "/") eqn:E;
    [reflexivity | symmetry; apply lstrip_id; exact E].
Qed.

(** A prefix that survives [rstrip] was a prefix of the argument. *)
Lemma startswith_rstrip (s p : string) :
  PyStr.startswith (PyStr.rstrip "/" s) p = true ->
  PyStr.startswith s p = true.
Proof.
  unfold PyStr.startswith. intros H.
  destruct (rstrip_run s) as [b [Hs _]]. rewrite Hs.
  apply prefix_app. exact H.
Qed.

Lemma mem_append (c : ascii) (a b : string) :
  PyStr.mem c (a ++ b) = PyStr.mem c a || PyStr.mem c b.
Proof.
  induction a as [|x a IH]; simpl; [reflexivity|].
  rewrite IH. apply orb_assoc.
Qed.

Lemma split_nonempty (sep : ascii) (s : string) : PyStr.split sep s <> [].
Proof.
  destruct s as [|c s]; simpl; [discriminate|].
  destruct (Ascii.eqb c sep); [discriminate|].
  destruct (PyStr.split sep s); discriminate.
Qed.

Lemma join_split (sep : ascii) (s : string) :
  PyStr.join (String sep EmptyString) (PyStr.split sep s) = s.
Proof.
  unfold PyStr.join. induction s as [|c s IH]; [reflexivity|].
  cbn [PyStr.split]. pose proof (split_nonempty sep s) as NE.
  destruct (Ascii.eqb c sep) eqn:E.
  - apply Ascii.eqb_eq in E. subst c.
    destruct (PyStr.split sep s) as [|seg segs]; [congruence|].
    cbn [String.concat]. cbn [String.concat] in IH. rewrite IH. reflexivity.
  - destruct (PyStr.split sep s) as [|seg segs]; [congruence|].
    destruct segs as [|seg' segs]; simpl in *; congruence.
Qed.

Lemma split_segments (sep : ascii) (s : string) :
  Forall (fun seg => PyStr.mem sep seg = false) (PyStr.split sep s).
Proof.
  induction s as [|c s IH]; cbn [PyStr.split].
  - repeat constructor.
  - destruct (Ascii.eqb c sep) eqn:E.
    + constructor; [reflexivity | exact IH].
    + destruct (PyStr.split sep s) as [|seg segs]; [repeat constructor; simpl|].
      * rewrite Ascii.eqb_sym, E. reflexivity.
      * inversion IH; subst. constructor; [|assumption].
        simpl. rewrite Ascii.eqb_sym, E. assumption.
Qed.

(** A non-empty list seen from its end, as [l[0:-1]] and [l[-1]] see it. *)
Lemma list_from_end {A} (l : list A) :
  l <> [] ->
  exists front final,
    l = (front ++ [final])%list
    /\ PyStr.all_but_last l = front
    /\ PyStr.item_last l = Ok final.
Proof.
  unfold PyStr.all_but_last.
  induction l as [|x l IH]; [congruence|]. intros _.
  destruct l as [|y l].
  - exists [], x. repeat split.
  - destruct IH as [front [final [Hl [Hf Hi]]]]; [discriminate|].
    exists (x :: front), final. split; [|split].
    + simpl. rewrite <- Hl. reflexivity.
    + cbn [removelast] in *. rewrite Hf. reflexivity.
    + exact Hi.
Qed.

Lemma join_snoc (sep : string) (front : list string) (final : string) :
  front <> [] ->
  PyStr.join sep (front ++ [final])%list = PyStr.join sep front ++ sep ++ final.
Proof.
  unfold PyStr.join.
  induction front as [|x front IH]; [congruence|]. intros _.
  destruct front as [|y front].
  - reflexivity.
  - change (String.concat sep ((x :: y :: front) ++ [final])%list)
      with (x ++ sep ++ String.concat sep ((y :: front) ++ [final])%list).
    rewrite IH by discriminate.
    cbn [String.concat]. now rewrite !append_assoc.
Qed.

(** [__init__] always returns; the fields it stores. *)
Lemma init_returns (sup : string -> result unit)
    (task ftp src bucket : string) (dest : option string)
    (gcp : string) (move : bool) (chain : option (string + list string)) :
  exists front final,
    PyStr.split "/" src = (front ++ [final])%list
    /\ __init__ sup task ftp src bucket dest gcp move chain =
         match sup task with
         | Raise e => Raise e
         | Ok _ =>
             Ok (mkOperator task gcp chain ftp move
                   (_set_destination_path dest) (_set_bucket_name bucket)
                   (PyStr.join "/" front) final)
         end.
Proof.
  destruct (list_from_end (PyStr.split "/" src) (split_nonempty _ _))
    as [front [final [Hl [Hf Hi]]]].
  exists front, final. split; [exact Hl|].
  unfold __init__. rewrite Hi, Hf. reflexivity.
Qed.

Lemma prefix_append_cancel (p q s : string) :
  String.prefix (p ++ q) (p ++ s) = String.prefix q s.
Proof.
  induction p as [|a p IH]; [reflexivity|].
  cbn [append String.prefix].
  destruct (ascii_dec a a); [exact IH | congruence].
Qed.

Lemma strip_keeps_scheme_out (s : string) :
  PyStr.startswith s "/" = false ->
  PyStr.startswith s "gs://" = false ->
  PyStr.startswith (PyStr.strip "/" s) "gs://" = false.
Proof.
  intros Hslash Hscheme. unfold PyStr.strip.
  assert (R : PyStr.startswith (PyStr.rstrip "/" s) "/" = false).
  { destruct (PyStr.startswith (PyStr.rstrip "/" s) "/") eqn:E; [|reflexivity].
    apply startswith_rstrip in E. congruence. }
  rewrite (lstrip_id _ R).
  destruct (PyStr.startswith (PyStr.rstrip "/" s) "gs://") eqn:E; [|reflexivity].
  apply startswith_rstrip in E. congruence.
Qed.

(** The bucket name stored for [name]: [name] without one leading ["gs://"]
    and without the slashes around what is left. *)
Lemma set_bucket_name_shape (name : string) :
  exists a b body,
    (if PyStr.startswith name "gs://"
     then name = "gs://" ++ body /\ String.length name = 5 + String.length body
     else name = body)
    /\ body = PyStr.replicate a "/" ++ _set_bucket_name name ++ PyStr.replicate b "/"
    /\ PyStr.startswith (_set_bucket_name name) "/" = false
    /\ PyStr.ends_with_char (_set_bucket_name name) "/" = false.
Proof.
  unfold _set_bucket_name.
  destruct (PyStr.startswith name "gs://") eqn:E; cbn [negb].
  - destruct (prefix_split _ _ E) as [rest Hr]. subst name.
    change (PyStr.slice_from 5 ("gs://" ++ rest)) with rest.
    destruct (strip_slashes rest) as [a [b [H1 [H2 H3]]]].
    exists a, b, rest. repeat split; assumption.
  - destruct (strip_slashes name) as [a [b [H1 [H2 H3]]]].
    exists a, b, name. repeat split; assumption.
Qed.

Lemma set_destination_path_shape (p : string) :
  exists a b,
    p = PyStr.replicate a "/" ++ _set_destination_path (Some p) ++ PyStr.replicate b "/"
    /\ PyStr.startswith (_set_destination_path (Some p)) "/" = false
    /\ PyStr.ends_with_char (_set_destination_path (Some p)) "/" = false.
Proof. rewrite set_destination_path_strip. apply strip_slashes. Qed.

End StringFacts.

(** * The constructor: claims C4 to C8 *)

(** What [__init__] does with the answer of [BaseOperator.__init__]. *)
Lemma init_after_super (sup : string -> result unit)
    (task ftp src bucket : string) (dest : option string)
    (gcp : string) (move : bool) (chain : option (string + list string)) :
  (forall e, sup task = Raise e ->
     __init__ sup task ftp src bucket dest gcp move chain = Raise e)
  /\ (forall self,
        __init__ sup task ftp src bucket dest gcp move chain = Ok self ->
        sup task = Ok tt
        /\ exists front final,
             PyStr.split "/" src = (front ++ [final])%list
             /\ self = mkOperator task gcp chain ftp move
                         (_set_destination_path dest) (_set_bucket_name bucket)
                         (PyStr.join "/" front) final)
  /\ (sup task = Ok tt ->
      exists self, __init__ sup task ftp src bucket dest gcp move chain = Ok self).
Proof.
  destruct (init_returns sup task ftp src bucket dest gcp move chain)
    as [front [final [Hs H]]].
  rewrite H. destruct (sup task) as [[]|e0].
  - split; [discriminate|]. split.
    + intros self E. injection E as <-. split; [reflexivity|].
      exists front, final. split; [exact Hs | reflexivity].
    + intros _. eexists. reflexivity.
  - split; [intros e E; injection E as ->; reflexivity|]. split; discriminate.
Qed.

(** C4, as amended.  [_set_bucket_name] removes the five characters of one
    leading ["gs://"] and then the leading and trailing slashes of what is
    left, and returns that string also when it is empty.  [__init__] adds no
    check: whenever [BaseOperator.__init__] returns, the constructor returns
    and stores that string, and it raises only what [BaseOperator.__init__]
    raises. *)
Theorem C4_bucket_name_normalised (name : string) :
  (exists a b body,
      (if PyStr.startswith name "gs://"
       then name = "gs://" ++ body /\ String.length name = 5 + String.length body
       else name = body)
      /\ body = PyStr.replicate a "/" ++ _set_bucket_name name ++ PyStr.replicate b "/"
      /\ PyStr.startswith (_set_bucket_name name) "/" = false
      /\ PyStr.ends_with_char (_set_bucket_name name) "/" = false)
  /\ (forall sup task ftp src dest gcp move chain,
        (sup task = Ok tt ->
         exists self,
           __init__ sup task ftp src name dest gcp move chain = Ok self
           /\ destination_bucket self = _set_bucket_name name)
        /\ (forall e,
              __init__ sup task ftp src name dest gcp move chain = Raise e ->
              sup task = Raise e))
  /\ _set_bucket_name "gs://" = EmptyString
  /\ _set_bucket_name "///" = EmptyString.
Proof.
  split; [apply set_bucket_name_shape | split; [|split; reflexivity]].
  intros sup task ftp src dest gcp move chain.
  destruct (init_returns sup task ftp src name dest gcp move chain)
    as [front [final [_ H]]].
  rewrite H. split.
  - intros ->. eexists. split; reflexivity.
  - intros e. destruct (sup task) as [[]|e0]; [discriminate|].
    intros E. injection E as ->. reflexivity.
Qed.

Lemma C4_bucket_name_normalised_witness :
  exists self,
    __init__ accepts_all "ftp_to_gcs" "ftp_default" "out/*.csv" "gs://bucket/"
      None default_gcp_conn_id false None = Ok self
    /\ destination_bucket self = _set_bucket_name "gs://bucket/".
Proof.
  apply (proj1 (proj1 (proj2 (C4_bucket_name_normalised "gs://bucket/"))
                  accepts_all "ftp_to_gcs" "ftp_default" "out/*.csv" None
                  default_gcp_conn_id false None)).
  reflexivity.
Defined.

(** C4 as stated fails: the bucket name ["gs://"] normalises to the empty
    string, the constructor returns (for a [BaseOperator.__init__] that
    accepts the task id), and a run in a world where nothing fails asks the
    storage client for the bucket with the empty name, connects to the FTP
    server and returns. *)
Lemma C4_counterexample :
  __init__ accepts_all "ftp_to_gcs" "ftp_default" "out/*.csv" "gs://" (Some "in")
    default_gcp_conn_id false None
  = Ok (mkOperator "ftp_to_gcs" default_gcp_conn_id None "ftp_default" false
          "in" EmptyString "out" "*.csv")
  /\ outcome (world_of nothing_fails ["a.csv"])
       (mkOperator "ftp_to_gcs" default_gcp_conn_id None "ftp_default" false
          "in" EmptyString "out" "*.csv")
     = Ok tt
  /\ firstn 4 (trace (world_of nothing_fails ["a.csv"])
                 (mkOperator "ftp_to_gcs" default_gcp_conn_id None "ftp_default"
                    false "in" EmptyString "out" "*.csv"))
     = [(GetConnectionFromSecrets "ftp_default", None);
        (StorageClient, None);
        (GetBucket EmptyString, None);
        (FtpConnect "ftp.example.org", None)].
Proof. repeat split. Qed.

(** C5, as amended.  [_set_destination_path] gives the empty string for an
    absent path; otherwise it removes every trailing slash and then every
    leading slash, so what it returns neither starts nor ends with a slash and
    a path made of slashes only becomes the empty string. *)
Theorem C5_destination_path_normalised :
  _set_destination_path None = EmptyString
  /\ (forall p, exists a b,
        p = PyStr.replicate a "/" ++ _set_destination_path (Some p) ++ PyStr.replicate b "/"
        /\ PyStr.startswith (_set_destination_path (Some p)) "/" = false
        /\ PyStr.ends_with_char (_set_destination_path (Some p)) "/" = false)
  /\ (forall n, _set_destination_path (Some (PyStr.replicate n "/")) = EmptyString).
Proof.
  split; [reflexivity | split].
  - exact set_destination_path_shape.
  - intros n. unfold _set_destination_path.
    rewrite rstrip_all_slashes. reflexivity.
Qed.

(** C5 as stated fails: for ["//a"] the code removes both leading slashes,
    where the wording removes one. *)
Lemma C5_counterexample :
  _set_destination_path (Some "//a") = "a"
  /\ spec_normalizeDestinationPrefix (Some "//a") = "/a"
  /\ _set_destination_path (Some "//a")
     <> spec_normalizeDestinationPrefix (Some "//a").
Proof. repeat split. discriminate. Qed.

(** Facts for the scheme marker that [_set_bucket_name] leaves in place. *)

Lemma append_inj_l (p a b : string) : p ++ a = p ++ b -> a = b.
Proof.
  induction p as [|c p IH]; cbn [append]; intros H; [exact H|].
  injection H as H. exact (IH H).
Qed.

Lemma append_replicate_l (u v : string) (n : nat) (c : ascii) :
  u ++ v = PyStr.replicate n c -> exists m, u = PyStr.replicate m c.
Proof.
  revert n. induction u as [|x u IH]; intros n H.
  - exists 0. reflexivity.
  - destruct n as [|n]; [discriminate H|].
    cbn [append PyStr.replicate] in H. injection H as -> H.
    destruct (IH n H) as [m ->]. exists (S m). reflexivity.
Qed.

Lemma ends_with_replicate (x : string) (m : nat) (c : ascii) :
  PyStr.ends_with_char (x ++ PyStr.replicate (S m) c) c = true.
Proof.
  induction x as [|d x IH].
  - induction m as [|m IHm].
    + cbn. apply Ascii.eqb_refl.
    + cbn [append PyStr.replicate] in *.
      rewrite ends_with_char_cons. exact IHm.
  - cbn [append]. rewrite ends_with_char_cons.
    destruct (x ++ PyStr.replicate (S m) c) eqn:E; [|exact IH].
    destruct x; discriminate E.
Qed.

Lemma rstrip_empty (s : string) :
  PyStr.rstrip "/" s = EmptyString <-> exists n, s = PyStr.replicate n "/".
Proof.
  split.
  - intros E. destruct (rstrip_run s) as [b [Hs _]].
    rewrite E in Hs. exists b. exact Hs.
  - intros [n ->]. apply rstrip_all_slashes.
Qed.

Lemma rstrip_app_kept (x y : string) :
  PyStr.rstrip "/" y <> EmptyString ->
  PyStr.rstrip "/" (x ++ y) = x ++ PyStr.rstrip "/" y.
Proof.
  intros Hy. induction x as [|c x IH]; [reflexivity|].
  cbn [append PyStr.rstrip]. rewrite IH.
  destruct (x ++ PyStr.rstrip "/" y) eqn:E; [|reflexivity].
  destruct x; [contradiction | discriminate E].
Qed.

Lemma lstrip_replicate (a : nat) (z : string) :
  PyStr.lstrip "/" (PyStr.replicate a "/" ++ z) = PyStr.lstrip "/" z.
Proof. induction a as [|a IH]; [reflexivity | exact IH]. Qed.

(** When what [strip("/")] returns starts with the scheme marker. *)
Lemma strip_keeps_scheme (s : string) :
  PyStr.startswith (PyStr.strip "/" s) "gs://" = true
  <-> exists a t,
        s = PyStr.replicate a "/" ++ "gs://" ++ t
        /\ ~ (exists n, t = PyStr.replicate n "/").
Proof.
  split.
  - intros H. destruct (strip_slashes s) as [a [b [Hs [_ Hr]]]].
    destruct (prefix_split _ _ H) as [u Hu]. rewrite Hu in Hs, Hr.
    exists a, (u ++ PyStr.replicate b "/"). split.
    + rewrite Hs. rewrite (append_assoc "gs://" u). reflexivity.
    + intros [n Hn]. destruct (append_replicate_l _ _ _ _ Hn) as [m ->].
      destruct m as [|m].
      * discriminate Hr.
      * rewrite (ends_with_replicate "gs://" m "/") in Hr. discriminate Hr.
  - intros [a [t [-> Ht]]].
    assert (Hk : PyStr.rstrip "/" t <> EmptyString).
    { intros E. apply Ht. apply rstrip_empty. exact E. }
    assert (Hg : PyStr.rstrip "/" ("gs://" ++ t) = "gs://" ++ PyStr.rstrip "/" t)
      by (apply rstrip_app_kept; exact Hk).
    unfold PyStr.strip. rewrite rstrip_app_kept by (rewrite Hg; discriminate).
    rewrite Hg, lstrip_replicate. cbn [append].
    destruct (PyStr.rstrip "/" t); reflexivity.
Qed.

(** C6, as amended.  Every constructed operator stores a destination path and
    a destination bucket that neither start nor end with a slash.  The
    stored bucket starts with ["gs://"] exactly when the raw name is one or
    more slashes, or ["gs://"] and any number of slashes, followed by
    ["gs://"] and a rest that is not made of slashes only; for every other
    raw name it carries no scheme marker in front. *)
Theorem C6_stored_fields_normalised
    (sup : string -> result unit)
    (task ftp src bucket : string) (dest : option string) (gcp : string)
    (move : bool) (chain : option (string + list string))
    (self : FTPToGCSOperator) :
  __init__ sup task ftp src bucket dest gcp move chain = Ok self ->
  PyStr.startswith (destination_path self) "/" = false
  /\ PyStr.ends_with_char (destination_path self) "/" = false
  /\ PyStr.startswith (destination_bucket self) "/" = false
  /\ PyStr.ends_with_char (destination_bucket self) "/" = false
  /\ (PyStr.startswith (destination_bucket self) "gs://" = true
      <-> exists a t,
            (bucket = PyStr.replicate (S a) "/" ++ "gs://" ++ t
             \/ bucket = "gs://" ++ PyStr.replicate a "/" ++ "gs://" ++ t)
            /\ ~ (exists n, t = PyStr.replicate n "/")).
Proof.
  intros E.
  destruct (init_after_super sup task ftp src bucket dest gcp move chain)
    as [_ [H _]].
  destruct (H self E) as [_ [front [final [_ ->]]]].
  cbn [destination_path destination_bucket].
  destruct (set_bucket_name_shape bucket) as [a [b [body [_ [_ [B1 B2]]]]]].
  assert (P : PyStr.startswith (_set_destination_path dest) "/" = false
              /\ PyStr.ends_with_char (_set_destination_path dest) "/" = false).
  { destruct dest as [p|]; [|split; reflexivity].
    destruct (set_destination_path_shape p) as [a' [b' [_ [P1 P2]]]].
    split; assumption. }
  destruct P as [P1 P2].
  repeat (split; [assumption|]).
  unfold _set_bucket_name.
  destruct (PyStr.startswith bucket "gs://") eqn:Sch; cbn [negb].
  - destruct (prefix_split _ _ Sch) as [rest ->].
    change (PyStr.slice_from 5 ("gs://" ++ rest)) with rest.
    rewrite strip_keeps_scheme. split.
    + intros [a0 [t [-> Ht]]]. exists a0, t. split; [right; reflexivity | exact Ht].
    + intros [a0 [t [[Hb|Hb] Ht]]].
      * rewrite Hb in Sch. discriminate Sch.
      * apply (append_inj_l "gs://") in Hb. exists a0, t. split; assumption.
  - rewrite strip_keeps_scheme. split.
    + intros [a0 [t [Hb Ht]]]. destruct a0 as [|a0].
      * rewrite Hb in Sch. unfold PyStr.startswith in Sch. cbn [PyStr.replicate append] in Sch.
        rewrite <- (append_empty_r "gs://") in Sch at 1.
        change (String.prefix ("gs://" ++ EmptyString) ("gs://" ++ t) = false) in Sch.
        rewrite prefix_append_cancel in Sch. destruct t; discriminate Sch.
      * exists a0, t. split; [left; exact Hb | exact Ht].
    + intros [a0 [t [[Hb|Hb] Ht]]].
      * exists (S a0), t. split; assumption.
      * rewrite Hb in Sch. unfold PyStr.startswith in Sch.
        rewrite <- (append_empty_r "gs://") in Sch at 1.
        rewrite prefix_append_cancel in Sch.
        destruct (PyStr.replicate a0 "/" ++ "gs://" ++ t); discriminate Sch.
Qed.

Lemma C6_stored_fields_normalised_witness :
  PyStr.startswith (destination_path (sample_operator true)) "/" = false
  /\ PyStr.ends_with_char (destination_path (sample_operator true)) "/" = false
  /\ PyStr.startswith (destination_bucket (sample_operator true)) "/" = false
  /\ PyStr.ends_with_char (destination_bucket (sample_operator true)) "/" = false
  /\ (PyStr.startswith (destination_bucket (sample_operator true)) "gs://" = true
      <-> exists a t,
            ("gs://bucket/" = PyStr.replicate (S a) "/" ++ "gs://" ++ t
             \/ "gs://bucket/" = "gs://" ++ PyStr.replicate a "/" ++ "gs://" ++ t)
            /\ ~ (exists n, t = PyStr.replicate n "/")).
Proof.
  apply (C6_stored_fields_normalised accepts_all "ftp_to_gcs" "ftp_default"
           "out/*.csv" "gs://bucket/" (Some "/in/") default_gcp_conn_id true None
           (sample_operator true)).
  reflexivity.
Defined.

(** C6 as stated fails: a second scheme marker, or one behind a slash, stays
    in the stored bucket. *)
Lemma C6_counterexample :
  __init__ accepts_all "ftp_to_gcs" "ftp_default" "out/*.csv" "gs://gs://bucket"
    None default_gcp_conn_id false None
  = Ok (mkOperator "ftp_to_gcs" default_gcp_conn_id None "ftp_default" false
          EmptyString "gs://bucket" "out" "*.csv")
  /\ PyStr.startswith "gs://bucket" "gs://" = true
  /\ _set_bucket_name "/gs://bucket" = "gs://bucket".
Proof. repeat split. Qed.

(** C7, as amended.  For a raw bucket name that neither starts nor ends with a
    slash and does not itself start with ["gs://"], [_set_bucket_name] gives
    the same result with and without a ["gs://"] in front, namely the raw
    name. *)
Theorem C7_scheme_prefix_ignored (raw : string) :
  PyStr.startswith raw "/" = false ->
  PyStr.ends_with_char raw "/" = false ->
  PyStr.startswith raw "gs://" = false ->
  _set_bucket_name ("gs://" ++ raw) = _set_bucket_name raw
  /\ _set_bucket_name raw = raw.
Proof.
  intros Hl Hr Hs.
  assert (E : _set_bucket_name raw = raw).
  { unfold _set_bucket_name. rewrite Hs. cbn [negb]. apply strip_id; assumption. }
  split; [|exact E]. rewrite E.
  unfold _set_bucket_name.
  replace (PyStr.startswith ("gs://" ++ raw) "gs://") with true.
  - cbn [negb]. change (PyStr.slice_from 5 ("gs://" ++ raw)) with raw.
    apply strip_id; assumption.
  - symmetry. unfold PyStr.startswith.
    rewrite <- (append_empty_r "gs://") at 1.
    rewrite prefix_append_cancel. destruct raw; reflexivity.
Qed.

Lemma C7_scheme_prefix_ignored_witness :
  _set_bucket_name ("gs://" ++ "bucket") = _set_bucket_name "bucket"
  /\ _set_bucket_name "bucket" = "bucket".
Proof.
  apply (C7_scheme_prefix_ignored "bucket"); reflexivity.
Defined.

(** C7 as stated fails: ["gs://b"] has no slash at either end, yet the two
    results differ. *)
Lemma C7_counterexample :
  PyStr.startswith "gs://b" "/" = false
  /\ PyStr.ends_with_char "gs://b" "/" = false
  /\ _set_bucket_name ("gs://" ++ "gs://b") = "gs://b"
  /\ _set_bucket_name "gs://b" = "b"
  /\ _set_bucket_name ("gs://" ++ "gs://b") <> _set_bucket_name "gs://b".
Proof. repeat split. discriminate. Qed.

(** C8.  In every constructed operator [ftp_file] is the last piece of the
    source path cut at its slashes and [ftp_folder] the pieces before it
    joined with slashes.  The pieces contain no slash and joined they give
    the path back, so a path with a slash is [ftp_folder], a slash and
    [ftp_file], and a path without one has an empty [ftp_folder] and is its
    own [ftp_file].  With the same task id, ["a/b/c*.txt"] gives ["a/b"] and
    ["c*.txt"], and ["c*.txt"] gives the empty folder and ["c*.txt"]. *)
Theorem C8_source_path_split
    (sup : string -> result unit)
    (task ftp src bucket : string) (dest : option string) (gcp : string)
    (move : bool) (chain : option (string + list string))
    (self : FTPToGCSOperator) :
  __init__ sup task ftp src bucket dest gcp move chain = Ok self ->
  (exists preceding,
      PyStr.split "/" src = (preceding ++ [ftp_file self])%list
      /\ ftp_folder self = PyStr.join "/" preceding)
  /\ PyStr.join "/" (PyStr.split "/" src) = src
  /\ Forall (fun piece => PyStr.mem "/" piece = false) (PyStr.split "/" src)
  /\ (if PyStr.mem "/" src
      then src = ftp_folder self ++ "/" ++ ftp_file self
      else ftp_folder self = EmptyString /\ ftp_file self = src)
  /\ source_parts (__init__ sup task ftp "a/b/c*.txt" bucket dest gcp move chain)
     = Ok ("a/b", "c*.txt")
  /\ source_parts (__init__ sup task ftp "c*.txt" bucket dest gcp move chain)
     = Ok (EmptyString, "c*.txt").
Proof.
  intros E.
  destruct (init_after_super sup task ftp src bucket dest gcp move chain)
    as [_ [H _]].
  destruct (H self E) as [Hsup [front [final [Hs ->]]]].
  cbn [ftp_file ftp_folder].
  pose proof (join_split "/" src) as J.
  pose proof (split_segments "/" src) as F.
  split; [exists front; split; [exact Hs | reflexivity]|].
  split; [exact J|]. split; [exact F|]. split.
  - rewrite Hs in J, F.
    destruct front as [|x front].
    + cbn in J. subst final. inversion F as [|? ? Hm _]; subst.
      rewrite Hm. split; reflexivity.
    + rewrite join_snoc in J by discriminate.
      assert (M : PyStr.mem "/" src = true).
      { rewrite <- J, !mem_append. cbn [PyStr.mem].
        rewrite Ascii.eqb_refl. cbn [orb]. apply orb_true_r. }
      rewrite M. symmetry. exact J.
  - unfold __init__. rewrite Hsup. split; reflexivity.
Qed.

Lemma C8_source_path_split_witness :
  (exists preceding,
      PyStr.split "/" "out/*.csv"
      = (preceding ++ [ftp_file (sample_operator true)])%list
      /\ ftp_folder (sample_operator true) = PyStr.join "/" preceding)
  /\ PyStr.join "/" (PyStr.split "/" "out/*.csv") = "out/*.csv"
  /\ Forall (fun piece => PyStr.mem "/" piece = false) (PyStr.split "/" "out/*.csv")
  /\ (if PyStr.mem "/" "out/*.csv"
      then "out/*.csv"
           = ftp_folder (sample_operator true) ++ "/"
               ++ ftp_file (sample_operator true)
      else ftp_folder (sample_operator true) = EmptyString
           /\ ftp_file (sample_operator true) = "out/*.csv")
  /\ source_parts (__init__ accepts_all "ftp_to_gcs" "ftp_default" "a/b/c*.txt"
                     "gs://bucket/" (Some "/in/") default_gcp_conn_id true None)
     = Ok ("a/b", "c*.txt")
  /\ source_parts (__init__ accepts_all "ftp_to_gcs" "ftp_default" "c*.txt"
                     "gs://bucket/" (Some "/in/") default_gcp_conn_id true None)
     = Ok (EmptyString, "c*.txt").
Proof.
  apply (C8_source_path_split accepts_all "ftp_to_gcs" "ftp_default"
           "out/*.csv" "gs://bucket/" (Some "/in/") default_gcp_conn_id true None
           (sample_operator true)).
  reflexivity.
Defined.

(** * Runs of [execute] stay inside the listed shapes *)

Section Shapes.

Variable w : World.
Variable self : FTPToGCSOperator.

Lemma transfer_one_shape (name : string) (fr : Frame) :
  exists evs,
    history (snd (transfer_one w self name fr)) = (history fr ++ evs)%list
    /\ filename (snd (transfer_one w self name fr)) = filename fr
    /\ iteration self name (fst (transfer_one w self name fr)) evs.
Proof.
  unfold transfer_one, bind, log_info, with_open, invoke, ret.
  cbn [record_event history filename fst snd].
  repeat match goal with
         | |- context [raises w ?h ?c] =>
             destruct (raises w h c) eqn:?;
             cbn [record_event history filename fst snd]
         | |- context [move_object self] =>
             destruct (move_object self) eqn:?;
             cbn [record_event history filename fst snd]
         end.
  all: eexists; split; [repeat rewrite <- app_assoc; reflexivity|].
  all: split; [reflexivity|].
  all: first [ exact (it_retr_raises self name _ (Some _))
             | exact (it_retr_raises self name _ None)
             | constructor; assumption ].
Qed.

Lemma for_filename_cons (name : string) (rest : list string)
    (body : string -> M unit) (fr : Frame) :
  for_filename (name :: rest) body fr =
    match body name (mkFrame (history fr) (Some name)) with
    | (Ok _, fr1) => for_filename rest body fr1
    | (Raise e, fr1) => (Raise e, fr1)
    end.
Proof. reflexivity. Qed.

Lemma for_filename_shape (names : list string) (fr : Frame) :
  exists evs,
    history (snd (for_filename names (transfer_one w self) fr))
    = (history fr ++ evs)%list
    /\ looping self names (filename fr)
         (fst (for_filename names (transfer_one w self) fr))
         (filename (snd (for_filename names (transfer_one w self) fr)))
         evs.
Proof.
  revert fr. induction names as [|name rest IH]; intros fr.
  - exists []. split; [symmetry; apply app_nil_r | constructor].
  - rewrite for_filename_cons.
    destruct (transfer_one_shape name (mkFrame (history fr) (Some name)))
      as [evs [Hh [Hf Hit]]].
    destruct (transfer_one w self name (mkFrame (history fr) (Some name)))
      as [[[]|e] fr1]; cbn [fst snd history filename] in *.
    + destruct (IH fr1) as [evs' [Hh' Hl]].
      exists (evs ++ evs')%list. split.
      * rewrite Hh', Hh. symmetry. apply app_assoc.
      * rewrite Hf in Hl. econstructor; eassumption.
    + exists evs. split; [exact Hh|].
      rewrite Hf. constructor. exact Hit.
Qed.

Lemma looping_raise_binds names before e after evs :
  looping self names before (Raise e) after evs ->
  exists name, after = Some name.
Proof.
  intros H. remember (Raise e) as r eqn:R.
  induction H; [discriminate | auto | eauto].
Qed.

Ltac next_call :=
  match goal with
  | |- context [raises w ?h ?c] =>
      destruct (raises w h c) eqn:?;
      cbn [record_event history filename fst snd initial_frame app str
             thrown is_Exception]
  end.

(** Closing a case with the path [P], the answers of the world to the quits
    being in the context. *)
Ltac close_with P :=
  let H := fresh "P" in
  pose proof P as H;
  cbn [handled_result handled_events after_quit thrown app setup_events
         connect_events session_events str] in H;
  try match goal with
      | Q : raises w _ FtpQuit = ?v |- _ =>
          match type of H with
          | context [raises w ?l FtpQuit] =>
              replace (raises w l FtpQuit) with v in H by (symmetry; exact Q)
          end
      end;
  cbn [after_quit thrown] in H;
  exact H.

Lemma run_shape : run_path w self (outcome w self) (trace w self).
Proof.
  unfold outcome, trace, run, execute.
  unfold get_connection_from_secrets, nlst, try_except, try_except_else.
  unfold bind, log_info, invoke, ret, raise, read_filename.
  cbn [record_event history filename fst snd initial_frame app].
  next_call; [apply path_secrets_raise|].
  next_call; [apply path_client_raises|].
  next_call; [apply path_bucket_raises|].
  next_call.
  { match goal with r : raised |- _ => destruct r end;
      cbn [thrown is_Exception str fst snd];
      [ close_with (path_connect_raises w self (Exc cause))
      | close_with (path_connect_raises w self (BaseExc cause)) ]. }
  next_call.
  { match goal with r : raised |- _ => destruct r end;
      cbn [thrown is_Exception str fst snd];
      [ next_call; close_with (path_login_raises w self (Exc cause))
      | close_with (path_login_raises w self (BaseExc cause)) ]. }
  next_call.
  { match goal with r : raised |- _ => destruct r end;
      cbn [thrown is_Exception str fst snd];
      [ next_call; close_with (path_cwd_raises w self (Exc cause))
      | close_with (path_cwd_raises w self (BaseExc cause)) ]. }
  next_call.
  { match goal with r : raised |- _ => destruct r end;
      cbn [thrown is_Exception str fst snd];
      [ next_call; close_with (path_nlst_raises w self (Exc cause))
      | close_with (path_nlst_raises w self (BaseExc cause)) ]. }
  match goal with
  | |- context [for_filename ?ns ?b ?fr] =>
      destruct (for_filename_shape ns fr) as [evs [Hh Hl]];
      destruct (for_filename ns b fr) as [[[]|e] fr1]
  end; cbn [record_event history filename fst snd initial_frame app] in Hh, Hl.
  - cbn [fst snd]. rewrite Hh.
    next_call; rewrite ?Hh;
      close_with (path_complete w self (filename fr1) evs Hl).
  - destruct (looping_raise_binds _ _ _ _ _ Hl) as [name Hn].
    rewrite Hn in Hl. cbn [fst snd].
    destruct (is_Exception e) eqn:IE.
    + rewrite Hh. next_call; rewrite ?Hh.
      * close_with (path_loop_raises w self e name evs Hl IE).
      * rewrite Hn. cbn [record_event history filename fst snd]. rewrite Hh.
        close_with (path_loop_raises w self e name evs Hl IE).
    + cbn [fst snd]. rewrite Hh.
      close_with (path_loop_interrupted w self e name evs Hl IE).
Qed.
End Shapes.

(** * What the loop leaves in the history *)

Section LoopFacts.

Variable self : FTPToGCSOperator.

Lemma pick_app {A} (sel : call -> option A) (h1 h2 : list event) :
  pick sel (h1 ++ h2) = (pick sel h1 ++ pick sel h2)%list.
Proof. unfold pick. apply flat_map_app. Qed.

Lemma blob_keys_app (h1 h2 : list event) :
  blob_keys (h1 ++ h2) = (blob_keys h1 ++ blob_keys h2)%list.
Proof. apply pick_app. Qed.

Lemma opened_keys_app (h1 h2 : list event) :
  opened_keys (h1 ++ h2) = (opened_keys h1 ++ opened_keys h2)%list.
Proof. apply pick_app. Qed.

Lemma retr_cmds_app (h1 h2 : list event) :
  retr_cmds (h1 ++ h2) = (retr_cmds h1 ++ retr_cmds h2)%list.
Proof. apply pick_app. Qed.

Lemma deleted_names_app (h1 h2 : list event) :
  deleted_names (h1 ++ h2) = (deleted_names h1 ++ deleted_names h2)%list.
Proof. apply pick_app. Qed.



Lemma file_dest_DestinationKey (name : string) :
  file_dest self name = DestinationKey (destination_path self) name.
Proof.
  unfold file_dest, DestinationKey.
  destruct (destination_path self); reflexivity.
Qed.

Lemma iteration_calls name r evs :
  iteration self name r evs -> forallb loop_call evs = true.
Proof. destruct 1; reflexivity. Qed.

Lemma iteration_blob_keys name r evs :
  iteration self name r evs -> blob_keys evs = [file_dest self name].
Proof. destruct 1; reflexivity. Qed.

Lemma iteration_ok name evs :
  iteration self name (Ok tt) evs ->
  forallb returned evs = true
  /\ opened_keys evs = [file_dest self name]
  /\ retr_cmds evs = ["RETR " ++ name]
  /\ deleted_names evs = if move_object self then [name] else [].
Proof.
  intros H. remember (Ok tt) as r eqn:R.
  destruct H as [| | | |M|M|M]; try discriminate R; rewrite M; repeat split.
Qed.

Lemma looping_calls names before r after evs :
  looping self names before r after evs -> forallb loop_call evs = true.
Proof.
  induction 1 as [| ? ? ? ? ? ? ? Hit _ IH | ? ? ? ? ? Hit].
  - reflexivity.
  - rewrite forallb_app, (iteration_calls _ _ _ Hit), IH. reflexivity.
  - exact (iteration_calls _ _ _ Hit).
Qed.


Lemma loop_calls_not_connect evs :
  forallb loop_call evs = true -> connected evs = false.
Proof.
  unfold connected. induction evs as [|[c r] evs IH]; [reflexivity|].
  cbn [forallb existsb]. intros H. apply andb_prop in H. destruct H as [Hc H].
  destruct c; try discriminate Hc; cbn; auto.
Qed.

Lemma loop_calls_no_nlst evs pattern r :
  forallb loop_call evs = true -> ~ In (FtpNlst pattern, r) evs.
Proof.
  intros H Hin. rewrite forallb_forall in H.
  specialize (H _ Hin). discriminate H.
Qed.

Lemma returned_not_raised evs c cause :
  forallb returned evs = true -> ~ In (c, Some cause) evs.
Proof.
  intros H Hin. rewrite forallb_forall in H.
  specialize (H _ Hin). discriminate H.
Qed.

(** A loop that ran to its end handled every name, in order. *)
Lemma looping_ok names before after evs :
  looping self names before (Ok tt) after evs ->
  forallb returned evs = true
  /\ blob_keys evs = map (file_dest self) names
  /\ opened_keys evs = map (file_dest self) names
  /\ retr_cmds evs = map (append "RETR ") names
  /\ deleted_names evs = if move_object self then names else [].
Proof.
  intros H. remember (Ok tt) as r eqn:R.
  induction H as [| ? ? ? ? ? ? ? Hit _ IH | ]; [| |discriminate R].
  - repeat split. destruct (move_object self); reflexivity.
  - subst r. destruct (iteration_ok _ _ Hit) as [I1 [I2 [I3 I4]]].
    destruct (IH eq_refl) as [L1 [L2 [L3 [L4 L5]]]].
    rewrite forallb_app, blob_keys_app, opened_keys_app, retr_cmds_app,
      deleted_names_app, I1, L1, L2, L3, L4, L5.
    rewrite (iteration_blob_keys _ _ _ Hit), I2, I3, I4.
    repeat split. destruct (move_object self); reflexivity.
Qed.

(** A loop, finished or not, handled a leading part of the names. *)
Lemma looping_blob_keys names before r after evs :
  looping self names before r after evs ->
  exists k, blob_keys evs = map (file_dest self) (firstn k names).
Proof.
  induction 1 as [| ? ? ? ? ? ? ? Hit _ IH | ? ? ? ? ? Hit].
  - exists 0. reflexivity.
  - destruct IH as [k Hk]. exists (S k).
    rewrite blob_keys_app, Hk, (iteration_blob_keys _ _ _ Hit). reflexivity.
  - exists 1. rewrite (iteration_blob_keys _ _ _ Hit). reflexivity.
Qed.


Lemma loop_call_in evs c (r : option raised) :
  forallb loop_call evs = true -> In (c, r) evs -> loop_call (c, r) = true.
Proof.
  intros H Hin. rewrite forallb_forall in H. exact (H _ Hin).
Qed.

End LoopFacts.

(** * Where a failed retrieve or delete sits *)

Section Failures.

Variable self : FTPToGCSOperator.



End Failures.

(** * Further facts about the loop *)

Lemma file_dest_inj (self : FTPToGCSOperator) (a b : string) :
  file_dest self a = file_dest self b -> a = b.
Proof.
  unfold file_dest. destruct (PyStr.nonempty (destination_path self)); [|auto].
  intros H. apply append_inj_l in H. apply (append_inj_l "/") in H. exact H.
Qed.

Section MoreLoopFacts.

Variable self : FTPToGCSOperator.

Lemma iteration_deleted name r evs :
  iteration self name r evs ->
  deleted_names evs = []
  \/ (move_object self = true /\ deleted_names evs = [name]).
Proof. destruct 1; auto. Qed.

Lemma looping_deleted names before r after evs :
  looping self names before r after evs ->
  exists k,
    deleted_names evs = if move_object self then firstn k names else [].
Proof.
  induction 1 as [| ? ? ? ? ? ? ? Hit _ IH | ? ? ? ? ? Hit].
  - exists 0. destruct (move_object self); reflexivity.
  - destruct IH as [k Hk]. exists (S k).
    destruct (iteration_ok _ _ _ Hit) as [_ [_ [_ Hd]]].
    rewrite deleted_names_app, Hd, Hk.
    destruct (move_object self); reflexivity.
  - destruct (iteration_deleted _ _ _ Hit) as [Hd | [Hm Hd]].
    + exists 0. rewrite Hd. destruct (move_object self); reflexivity.
    + exists 1. rewrite Hd, Hm. reflexivity.
Qed.

Lemma iteration_delete_tail name r evs f rd :
  iteration self name r evs ->
  In (FtpDelete f, rd) evs ->
  move_object self = true
  /\ exists pre, evs = (pre ++ delete_tail self f rd)%list.
Proof.
  intros Hit Hin.
  destruct Hit as [| | | |M|cause M|M];
    cbn [app announce_events download_events deleting_events In] in Hin;
    repeat match type of Hin with
           | _ \/ _ => destruct Hin as [Hin|Hin]; [try discriminate Hin|]
           | False => contradiction
           end;
    injection Hin as -> <-; (split; [exact M|]);
    exists (announce_events self f
              ++ [(BucketBlob (file_dest self f), None)]
              ++ download_events f
              ++ [(BlobOpen (file_dest self f), None)])%list;
    reflexivity.
Qed.

Lemma looping_delete_tail names before r after evs f rd :
  looping self names before r after evs ->
  In (FtpDelete f, rd) evs ->
  move_object self = true
  /\ exists pre post, evs = (pre ++ delete_tail self f rd ++ post)%list.
Proof.
  induction 1 as [| name rest before r after evs evs' Hit _ IH
                  | name rest before e evs Hit]; intros Hin.
  - contradiction.
  - apply in_app_or in Hin. destruct Hin as [Hin|Hin].
    + destruct (iteration_delete_tail _ _ _ _ _ Hit Hin) as [M [pre ->]].
      split; [exact M|]. exists pre, evs'.
      rewrite <- !app_assoc. reflexivity.
    + destruct (IH Hin) as [M [pre [post ->]]].
      split; [exact M|]. exists (evs ++ pre)%list, post.
      rewrite <- !app_assoc. reflexivity.
  - destruct (iteration_delete_tail _ _ _ _ _ Hit Hin) as [M [pre ->]].
    split; [exact M|]. exists pre, []. rewrite app_nil_r. reflexivity.
Qed.

Lemma opened_streams_app (h1 h2 : list event) :
  opened_streams (h1 ++ h2) = (opened_streams h1 ++ opened_streams h2)%list.
Proof. apply flat_map_app. Qed.

Lemma closed_streams_app (h1 h2 : list event) :
  closed_streams (h1 ++ h2) = (closed_streams h1 ++ closed_streams h2)%list.
Proof. apply pick_app. Qed.

Lemma iteration_streams name r evs :
  iteration self name r evs -> opened_streams evs = closed_streams evs.
Proof. destruct 1; reflexivity. Qed.

Lemma looping_streams names before r after evs :
  looping self names before r after evs ->
  opened_streams evs = closed_streams evs.
Proof.
  induction 1 as [| ? ? ? ? ? ? ? Hit _ IH | ? ? ? ? ? Hit].
  - reflexivity.
  - rewrite opened_streams_app, closed_streams_app, IH,
      (iteration_streams _ _ _ Hit). reflexivity.
  - exact (iteration_streams _ _ _ Hit).
Qed.

(** Where a failed [blob], [open] or stream close sits in the events of one
    iteration: it is the last call, and its exception leaves the loop. *)
Lemma iteration_failed_storage name r evs c f cause :
  iteration self name r evs ->
  c = BucketBlob (file_dest self f) \/ c = BlobOpen (file_dest self f)
  \/ c = StreamClose (file_dest self f) ->
  In (c, Some (Exc cause)) evs ->
  name = f
  /\ r = Raise (Foreign cause)
  /\ exists pre, evs = (pre ++ [(c, Some (Exc cause))])%list.
Proof.
  intros Hit Hc Hin.
  destruct Hit as [r0|r0|r0 rc|r0|M|r0 M|M];
    cbn [app announce_events download_events deleting_events In] in Hin;
    repeat match type of Hin with
           | _ \/ _ =>
               destruct Hin as [Hin|Hin];
               [destruct Hc as [Hc|[Hc|Hc]]; subst c; try discriminate Hin|]
           | False => contradiction
           end.
  all: injection Hin as Hk Hcause; apply file_dest_inj in Hk; subst.
  all: split; [reflexivity|]; split; [reflexivity|].
  - exists (announce_events self f). reflexivity.
  - exists (announce_events self f
              ++ [(BucketBlob (file_dest self f), None)]
              ++ download_events f)%list.
    reflexivity.
  - exists (announce_events self f
              ++ [(BucketBlob (file_dest self f), None)]
              ++ download_events f
              ++ [(BlobOpen (file_dest self f), None);
                  (FtpRetrbinary ("RETR " ++ f), Some r0)])%list.
    reflexivity.
  - exists (announce_events self f
              ++ [(BucketBlob (file_dest self f), None)]
              ++ download_events f
              ++ [(BlobOpen (file_dest self f), None);
                  (FtpRetrbinary ("RETR " ++ f), None)])%list.
    reflexivity.
Qed.

Lemma looping_failed_storage names before r after evs c f cause :
  looping self names before r after evs ->
  c = BucketBlob (file_dest self f) \/ c = BlobOpen (file_dest self f)
  \/ c = StreamClose (file_dest self f) ->
  In (c, Some (Exc cause)) evs ->
  after = Some f
  /\ r = Raise (Foreign cause)
  /\ exists pre, evs = (pre ++ [(c, Some (Exc cause))])%list.
Proof.
  intros Hl Hc.
  induction Hl as [| name rest before r after evs evs' Hit _ IH
                   | name rest before e evs Hit]; intros Hin.
  - contradiction.
  - apply in_app_or in Hin. destruct Hin as [Hin|Hin].
    + destruct (iteration_ok _ _ _ Hit) as [Hr _].
      exfalso. exact (returned_not_raised _ _ _ Hr Hin).
    + destruct (IH Hin) as [Ha [Hr [pre ->]]].
      split; [exact Ha|]. split; [exact Hr|].
      exists (evs ++ pre)%list. apply app_assoc.
  - destruct (iteration_failed_storage _ _ _ _ _ _ Hit Hc Hin) as [-> [Hr H]].
    split; [reflexivity|]. split; [exact Hr | exact H].
Qed.

End MoreLoopFacts.

(** * The paths of a run *)

Section RunFacts.

Variable w : World.
Variable self : FTPToGCSOperator.

(** The cases of a run, the locally named parts of the paths unfolded. *)
Ltac paths R :=
  destruct R as [r|r|r|r c|r c h|r c h|r c
                 |e name evs c h L IE|e name evs c L IE|after evs c h L];
  try subst h; try subst c;
  try destruct r as [cause'|cause'];
  cbn [handled_result handled_events thrown] in *.

(** Going through the entries of a history one by one. *)
Ltac scan H :=
  cbn [app session_events setup_events connect_events In] in H;
  repeat match type of H with
         | _ \/ _ => destruct H as [H|H]; [try discriminate H|]
         | False => contradiction
         end.





Lemma iteration_raise_not_returned name e evs :
  iteration self name (Raise e) evs -> forallb returned evs = false.
Proof.
  intros H. remember (Raise e) as r eqn:R.
  destruct H; try discriminate R; reflexivity.
Qed.

Lemma looping_raise_not_returned names before e after evs :
  looping self names before (Raise e) after evs ->
  forallb returned evs = false.
Proof.
  intros H. remember (Raise e) as r eqn:R.
  induction H as [| ? ? ? ? ? ? ? Hit _ IH | ? ? ? ? ? Hit].
  - discriminate R.
  - rewrite forallb_app, (IH R). apply andb_false_r.
  - injection R as ->. exact (iteration_raise_not_returned _ _ _ Hit).
Qed.



Lemma loop_history_returned evs :
  forallb returned
    (session_events self (connection_of w (ftp_conn_id self))
       ++ [(FtpNlst (ftp_file self), None)] ++ evs)
  = forallb returned evs.
Proof. reflexivity. Qed.

Lemma path_returns_iff r h :
  run_path w self r h -> (r = Ok tt <-> forallb returned h = true).
Proof.
  intros R. paths R;
    try (cbn; split; discriminate);
    try (cbn; match goal with
              | |- context [raises w ?l FtpQuit] =>
                  destruct (raises w l FtpQuit)
              end; cbn; split; discriminate).
  - pose proof (looping_raise_not_returned _ _ _ _ _ L) as F.
    rewrite forallb_app, loop_history_returned, F. cbn [andb].
    destruct (raises w _ FtpQuit); split; discriminate.
  - pose proof (looping_raise_not_returned _ _ _ _ _ L) as F.
    rewrite loop_history_returned, F.
    split; discriminate.
  - destruct (looping_ok _ _ _ _ _ L) as [T _].
    rewrite forallb_app, loop_history_returned, T.
    destruct (raises w _ FtpQuit); cbn; split; congruence.
Qed.








Lemma session_picks {A} (sel : call -> option A) (c : Connection) evs :
  (forall msg, sel (LogInfo msg) = None) ->
  sel (GetConnectionFromSecrets (ftp_conn_id self)) = None ->
  sel StorageClient = None ->
  sel (GetBucket (destination_bucket self)) = None ->
  sel (FtpConnect (host c)) = None ->
  sel (FtpLogin (login c) (password c)) = None ->
  sel (FtpCwd (ftp_folder self)) = None ->
  sel (FtpNlst (ftp_file self)) = None ->
  pick sel (session_events self c ++ [(FtpNlst (ftp_file self), None)] ++ evs)
  = pick sel evs.
Proof.
  intros HL H1 H2 H3 H4 H5 H6 H7.
  rewrite !pick_app. unfold pick at 1 2.
  cbn [session_events setup_events connect_events app flat_map fst].
  rewrite !HL, H1, H2, H3, H4, H5, H6, H7. reflexivity.
Qed.

Lemma session_picks_quit {A} (sel : call -> option A) (c : Connection) evs rq :
  (forall msg, sel (LogInfo msg) = None) ->
  sel (GetConnectionFromSecrets (ftp_conn_id self)) = None ->
  sel StorageClient = None ->
  sel (GetBucket (destination_bucket self)) = None ->
  sel (FtpConnect (host c)) = None ->
  sel (FtpLogin (login c) (password c)) = None ->
  sel (FtpCwd (ftp_folder self)) = None ->
  sel (FtpNlst (ftp_file self)) = None ->
  sel FtpQuit = None ->
  pick sel ((session_events self c ++ [(FtpNlst (ftp_file self), None)] ++ evs)
              ++ [(FtpQuit, rq)])
  = pick sel evs.
Proof.
  intros HL H1 H2 H3 H4 H5 H6 H7 H8.
  rewrite pick_app, session_picks by assumption.
  unfold pick at 2. cbn [flat_map fst]. rewrite H8. apply app_nil_r.
Qed.


Lemma path_destination_keys r h :
  run_path w self r h ->
  match r with
  | Ok _ =>
      blob_keys h = map (file_dest self) (listing w (ftp_file self))
      /\ opened_keys h = map (file_dest self) (listing w (ftp_file self))
      /\ retr_cmds h = map (append "RETR ") (listing w (ftp_file self))
  | Raise _ =>
      exists k,
        blob_keys h = map (file_dest self) (firstn k (listing w (ftp_file self)))
  end.
Proof.
  intros R. paths R;
    try (exists 0; reflexivity);
    try (destruct (raises w _ FtpQuit); exists 0; reflexivity).
  - destruct (looping_blob_keys _ _ _ _ _ _ L) as [k Hk].
    unfold blob_keys. rewrite session_picks_quit by reflexivity.
    destruct (raises w _ FtpQuit); exists k; exact Hk.
  - destruct (looping_blob_keys _ _ _ _ _ _ L) as [k Hk].
    unfold blob_keys. rewrite session_picks by reflexivity.
    exists k. exact Hk.
  - destruct (looping_ok _ _ _ _ _ L) as [_ [L1 [L2 [L3 _]]]].
    unfold blob_keys, opened_keys, retr_cmds.
    rewrite !session_picks_quit by reflexivity.
    destruct (raises w _ FtpQuit); cbn [after_quit].
    + exists (length (listing w (ftp_file self))). rewrite firstn_all. exact L1.
    + repeat split; assumption.
Qed.

(** ** Further facts about the paths of a run *)

Lemma path_deleted r h :
  run_path w self r h ->
  match r with
  | Ok _ =>
      deleted_names h
      = if move_object self then listing w (ftp_file self) else []
  | Raise _ =>
      exists k,
        deleted_names h
        = if move_object self then firstn k (listing w (ftp_file self)) else []
  end.
Proof.
  intros R. paths R;
    try (exists 0; destruct (move_object self); reflexivity);
    try (destruct (raises w _ FtpQuit); exists 0;
         destruct (move_object self); reflexivity).
  - unfold deleted_names. rewrite session_picks_quit by reflexivity.
    destruct (raises w _ FtpQuit); exact (looping_deleted _ _ _ _ _ _ L).
  - unfold deleted_names. rewrite session_picks by reflexivity.
    exact (looping_deleted _ _ _ _ _ _ L).
  - destruct (looping_ok _ _ _ _ _ L) as [_ [_ [_ [_ Hd]]]].
    unfold deleted_names. rewrite session_picks_quit by reflexivity.
    destruct (raises w _ FtpQuit); cbn [after_quit]; [|exact Hd].
    exists (length (listing w (ftp_file self))). rewrite firstn_all. exact Hd.
Qed.

Lemma path_delete_tail r h f rd :
  run_path w self r h ->
  In (FtpDelete f, rd) h ->
  move_object self = true
  /\ exists pre post, h = (pre ++ delete_tail self f rd ++ post)%list.
Proof.
  intros R Hin.
  paths R; try (scan Hin; fail); scan Hin;
    try (apply in_app_or in Hin; destruct Hin as [Hin|Hin]; [|scan Hin]);
    destruct (looping_delete_tail _ _ _ _ _ _ _ _ L Hin) as [M [pre [post ->]]];
    (split; [exact M|]).
  - exists (session_events self (connection_of w (ftp_conn_id self))
              ++ [(FtpNlst (ftp_file self), None)] ++ pre)%list,
      (post ++ [(FtpQuit,
                 raises w (session_events self (connection_of w (ftp_conn_id self))
                             ++ [(FtpNlst (ftp_file self), None)]
                             ++ pre ++ delete_tail self f rd ++ post) FtpQuit)])%list.
    rewrite <- !app_assoc. reflexivity.
  - exists (session_events self (connection_of w (ftp_conn_id self))
              ++ [(FtpNlst (ftp_file self), None)] ++ pre)%list, post.
    rewrite <- !app_assoc. reflexivity.
  - exists (session_events self (connection_of w (ftp_conn_id self))
              ++ [(FtpNlst (ftp_file self), None)] ++ pre)%list,
      (post ++ [(FtpQuit,
                 raises w (session_events self (connection_of w (ftp_conn_id self))
                             ++ [(FtpNlst (ftp_file self), None)]
                             ++ pre ++ delete_tail self f rd ++ post) FtpQuit)])%list.
    rewrite <- !app_assoc. reflexivity.
Qed.

Lemma path_failed_setup r h k x :
  run_path w self r h ->
  setup_call k = true ->
  In (k, Some x) h ->
  r = Raise (thrown x)
  /\ (exists before, h = (before ++ [(k, Some x)])%list)
  /\ existsb (fun e => ftp_call (fst e)) h = false.
Proof.
  intros R Hc Hin.
  paths R;
    try (scan Hin; try (injection Hin as <- _; discriminate Hc);
         injection Hin as <- <-; repeat split;
         first [ exists []; reflexivity
               | eexists [_]; reflexivity
               | eexists [_; _]; reflexivity ]).
  all: scan Hin;
    try (injection Hin as <- _; discriminate Hc);
    first
      [ apply in_app_or in Hin; destruct Hin as [Hin|Hin];
        [ pose proof (loop_call_in _ _ _ (looping_calls _ _ _ _ _ _ L) Hin) as Q;
          destruct k; discriminate
        | scan Hin; try (injection Hin as <- _; discriminate Hc) ]
      | pose proof (loop_call_in _ _ _ (looping_calls _ _ _ _ _ _ L) Hin) as Q;
        destruct k; discriminate ].
Qed.

(** Putting the answer [v] of the quit, read off the history, in the goal. *)
Ltac quit_answers Hq v :=
  match goal with
  | |- context [raises w ?l FtpQuit] =>
      replace (raises w l FtpQuit) with v by (symmetry; exact Hq)
  end.

Lemma path_failed_quit r h x :
  run_path w self r h ->
  In (FtpQuit, Some x) h ->
  r = Raise (thrown x)
  /\ exists before, h = (before ++ [(FtpQuit, Some x)])%list.
Proof.
  intros R Hin.
  paths R; try (scan Hin; fail);
    try (scan Hin; injection Hin as Hq; quit_answers Hq (Some x);
         split; [reflexivity|];
         first [ eexists [_; _; _; _; _; _]; reflexivity
               | eexists [_; _; _; _; _; _; _]; reflexivity
               | eexists [_; _; _; _; _; _; _; _; _]; reflexivity ]).
  - scan Hin. apply in_app_or in Hin. destruct Hin as [Hin|Hin].
    + pose proof (loop_call_in _ _ _ (looping_calls _ _ _ _ _ _ L) Hin) as Q.
      discriminate Q.
    + scan Hin. injection Hin as Hq. quit_answers Hq (Some x).
      split; [reflexivity|]. eexists. reflexivity.
  - scan Hin.
    pose proof (loop_call_in _ _ _ (looping_calls _ _ _ _ _ _ L) Hin) as Q.
    discriminate Q.
  - scan Hin. apply in_app_or in Hin. destruct Hin as [Hin|Hin].
    + pose proof (loop_call_in _ _ _ (looping_calls _ _ _ _ _ _ L) Hin) as Q.
      discriminate Q.
    + scan Hin. injection Hin as Hq. quit_answers Hq (Some x).
      split; [reflexivity|]. eexists. reflexivity.
Qed.

Lemma path_streams r h :
  run_path w self r h -> opened_streams h = closed_streams h.
Proof.
  intros R. paths R; try reflexivity;
    rewrite !opened_streams_app, !closed_streams_app,
      (looping_streams _ _ _ _ _ _ L); reflexivity.
Qed.

Lemma path_failed_storage r h k f cause :
  run_path w self r h ->
  k = BucketBlob (file_dest self f) \/ k = BlobOpen (file_dest self f)
  \/ k = StreamClose (file_dest self f) ->
  In (k, Some (Exc cause)) h ->
  exists before rq,
    h = (before ++ [(k, Some (Exc cause)); (FtpQuit, rq)])%list
    /\ (rq = None ->
        r = Raise (AirflowException
                     ("Error reading file " ++ f ++ ": " ++ cause ++ " "))).
Proof.
  intros R Hk Hin.
  paths R; try (destruct Hk as [Hk|[Hk|Hk]]; subst k; scan Hin; fail).
  - assert (Hev : In (k, Some (Exc cause)) evs).
    { destruct Hk as [Hk|[Hk|Hk]]; subst k; scan Hin;
        (apply in_app_or in Hin; destruct Hin as [Hin|Hin];
         [exact Hin | scan Hin]). }
    destruct (looping_failed_storage _ _ _ _ _ _ _ _ _ L Hk Hev)
      as [Ha [Hr [pre He]]].
    injection Ha as ->. injection Hr as ->.
    exists (session_events self (connection_of w (ftp_conn_id self))
              ++ [(FtpNlst (ftp_file self), None)] ++ pre)%list,
      (raises w (session_events self (connection_of w (ftp_conn_id self))
                   ++ [(FtpNlst (ftp_file self), None)] ++ evs) FtpQuit).
    split; [rewrite He, <- !app_assoc; reflexivity|].
    intros ->. reflexivity.
  - assert (Hev : In (k, Some (Exc cause)) evs)
      by (destruct Hk as [Hk|[Hk|Hk]]; subst k; scan Hin; exact Hin).
    destruct (looping_failed_storage _ _ _ _ _ _ _ _ _ L Hk Hev)
      as [_ [Hr _]].
    injection Hr as ->. discriminate IE.
  - assert (Hev : In (k, Some (Exc cause)) evs).
    { destruct Hk as [Hk|[Hk|Hk]]; subst k; scan Hin;
        (apply in_app_or in Hin; destruct Hin as [Hin|Hin];
         [exact Hin | scan Hin]). }
    destruct (looping_failed_storage _ _ _ _ _ _ _ _ _ L Hk Hev)
      as [_ [Hr _]].
    discriminate Hr.
Qed.

Lemma path_transfer_needs_session r h k rc :
  run_path w self r h ->
  transfer_call k = true ->
  In (k, rc) h ->
  exists rest,
    h = (session_events self (connection_of w (ftp_conn_id self))
           ++ (FtpNlst (ftp_file self), None) :: rest)%list.
Proof.
  intros R Hc Hin.
  paths R; try (scan Hin; injection Hin as <- _; discriminate Hc).
  - eexists. rewrite <- !app_assoc. reflexivity.
  - eexists. reflexivity.
  - eexists. rewrite <- !app_assoc. reflexivity.
Qed.

End RunFacts.

(** * The claims about [execute] *)

Ltac find_event :=
  vm_compute; repeat (first [left; reflexivity | right]).

(** C1.  The key handed to the bucket for a listed name is the destination
    path, a slash and the name when the destination path is non-empty, and the
    bare name otherwise.  A run that returns has done so for every listed
    name, in the order of the listing, and has retrieved them in that order; a
    run that raises has done so for a leading part of the listing.  With the
    listing ["a.csv"], ["b.csv"] and the destination path ["in"] the keys are
    ["in/a.csv"] and ["in/b.csv"]. *)
Theorem C1_destination_keys_in_listing_order (w : World) (self : FTPToGCSOperator) :
  (forall name,
      file_dest self name = DestinationKey (destination_path self) name)
  /\ match outcome w self with
     | Ok _ =>
         blob_keys (trace w self)
         = map (DestinationKey (destination_path self)) (listing w (ftp_file self))
         /\ opened_keys (trace w self)
            = map (DestinationKey (destination_path self)) (listing w (ftp_file self))
         /\ retr_cmds (trace w self)
            = map (append "RETR ") (listing w (ftp_file self))
     | Raise _ =>
         exists k,
           blob_keys (trace w self)
           = map (DestinationKey (destination_path self))
               (firstn k (listing w (ftp_file self)))
     end
  /\ blob_keys (trace (world_of nothing_fails ["a.csv"; "b.csv"])
                  (sample_operator false))
     = ["in/a.csv"; "in/b.csv"]
  /\ retr_cmds (trace (world_of nothing_fails ["a.csv"; "b.csv"])
                  (sample_operator false))
     = ["RETR a.csv"; "RETR b.csv"].
Proof.
  split; [exact (file_dest_DestinationKey self)|].
  split; [|split; reflexivity].
  pose proof (path_destination_keys w self _ _ (run_shape w self)) as H.
  assert (E : forall names,
             map (file_dest self) names
             = map (DestinationKey (destination_path self)) names).
  { intros names. apply map_ext. exact (file_dest_DestinationKey self). }
  destruct (outcome w self).
  - rewrite <- !E. exact H.
  - destruct H as [k Hk]. exists k. rewrite <- E. exact Hk.
Qed.











(** * Further properties of the constructor *)

Lemma replicate_app (a b : nat) (c : ascii) :
  PyStr.replicate a c ++ PyStr.replicate b c = PyStr.replicate (a + b) c.
Proof.
  induction a as [|a IH]; [reflexivity|]. simpl. now rewrite IH.
Qed.

Lemma strip_all_slashes (n : nat) :
  PyStr.strip "/" (PyStr.replicate n "/") = EmptyString.
Proof. unfold PyStr.strip. rewrite rstrip_all_slashes. reflexivity. Qed.

Lemma strip_empty (s : string) :
  PyStr.strip "/" s = EmptyString <-> exists n, s = PyStr.replicate n "/".
Proof.
  split.
  - intros E. destruct (strip_slashes s) as [a [b [Hs _]]].
    rewrite E in Hs. cbn [append] in Hs. rewrite replicate_app in Hs.
    exists (a + b). exact Hs.
  - intros [n ->]. apply strip_all_slashes.
Qed.

Lemma split_app_sep (sep : ascii) (a b : string) :
  PyStr.split sep (a ++ String sep b)
  = (PyStr.split sep a ++ PyStr.split sep b)%list.
Proof.
  induction a as [|c a IH]; cbn [append PyStr.split].
  - rewrite Ascii.eqb_refl. reflexivity.
  - rewrite IH. destruct (Ascii.eqb c sep); [reflexivity|].
    pose proof (split_nonempty sep a) as NE.
    destruct (PyStr.split sep a); [congruence | reflexivity].
Qed.

Lemma split_no_sep (sep : ascii) (s : string) :
  PyStr.mem sep s = false -> PyStr.split sep s = [s].
Proof.
  induction s as [|c s IH]; [reflexivity|].
  cbn [PyStr.mem PyStr.split]. intros H. apply orb_false_elim in H.
  destruct H as [Hc Hs]. rewrite Ascii.eqb_sym, Hc, (IH Hs). reflexivity.
Qed.

(** X1.  Normalising a destination path that is already normalised changes
    nothing. *)
Theorem X1_set_destination_path_idempotent (p : string) :
  _set_destination_path (Some (_set_destination_path (Some p)))
  = _set_destination_path (Some p).
Proof.
  destruct (set_destination_path_shape p) as [a [b [_ [Hl Hr]]]].
  rewrite (set_destination_path_strip (_set_destination_path (Some p))).
  apply strip_id; assumption.
Qed.

(** X2.  The stored destination path is empty, so that the files go to the
    root of the bucket, exactly when the given path consists of slashes only
    (the empty path included). *)
Theorem X2_destination_path_empty_iff (p : string) :
  _set_destination_path (Some p) = EmptyString
  <-> exists n, p = PyStr.replicate n "/".
Proof. rewrite set_destination_path_strip. apply strip_empty. Qed.

(** X3.  The stored bucket name is empty exactly when the given name consists
    of slashes only, or of ["gs://"] followed by slashes only. *)
Theorem X3_bucket_name_empty_iff (name : string) :
  _set_bucket_name name = EmptyString
  <-> exists n, name = PyStr.replicate n "/"
                \/ name = "gs://" ++ PyStr.replicate n "/".
Proof.
  unfold _set_bucket_name. split.
  - destruct (PyStr.startswith name "gs://") eqn:E; cbn [negb]; intros H.
    + destruct (prefix_split _ _ E) as [rest ->].
      change (PyStr.slice_from 5 ("gs://" ++ rest)) with rest in H.
      apply strip_empty in H. destruct H as [n ->]. exists n. right. reflexivity.
    + apply strip_empty in H. destruct H as [n ->]. exists n. left. reflexivity.
  - intros [n [-> | ->]].
    + replace (PyStr.startswith (PyStr.replicate n "/") "gs://") with false
        by (destruct n; reflexivity).
      cbn [negb]. apply strip_all_slashes.
    + replace (PyStr.startswith ("gs://" ++ PyStr.replicate n "/") "gs://")
        with true by (destruct n; reflexivity).
      cbn [negb].
      change (PyStr.slice_from 5 ("gs://" ++ PyStr.replicate n "/"))
        with (PyStr.replicate n "/").
      apply strip_all_slashes.
Qed.

(** X4.  When [BaseOperator.__init__] returns, the source path is cut at its
    last slash: for a directory part [d] and a name [f] without a slash, the
    path [d/f] is stored as folder [d] and file [f].  So a path that ends
    with a slash has an empty file pattern, and the path [/f] has the empty
    folder, like the path [f]. *)
Theorem X4_source_path_cut_at_last_slash
    (sup : string -> result unit)
    (task ftp bucket : string) (dest : option string) (gcp : string)
    (move : bool) (chain : option (string + list string)) (d f : string) :
  sup task = Ok tt ->
  PyStr.mem "/" f = false ->
  source_parts (__init__ sup task ftp (d ++ "/" ++ f) bucket dest gcp move chain)
  = Ok (d, f)
  /\ source_parts (__init__ sup task ftp (d ++ "/") bucket dest gcp move chain)
     = Ok (d, EmptyString)
  /\ source_parts (__init__ sup task ftp ("/" ++ f) bucket dest gcp move chain)
     = source_parts (__init__ sup task ftp f bucket dest gcp move chain).
Proof.
  intros Hs Hf.
  assert (G : forall d' f', PyStr.mem "/" f' = false ->
              source_parts (__init__ sup task ftp (d' ++ "/" ++ f') bucket dest gcp
                              move chain) = Ok (d', f')).
  { intros d' f' Hf'. unfold __init__. rewrite Hs.
    change (d' ++ "/" ++ f') with (d' ++ String "/" f').
    rewrite split_app_sep, (split_no_sep _ _ Hf').
    pose proof (split_nonempty "/" d') as NE.
    assert (L : PyStr.item_last (PyStr.split "/" d' ++ [f'])%list = Ok f').
    { induction (PyStr.split "/" d') as [|x l IH]; [reflexivity|].
      destruct l; [reflexivity | apply IH; discriminate]. }
    rewrite L. cbn [source_parts ftp_folder ftp_file].
    unfold PyStr.all_but_last. rewrite removelast_last, join_split.
    reflexivity. }
  split; [exact (G d f Hf)|]. split.
  - exact (G d EmptyString eq_refl).
  - transitivity (@Ok (string * string) (EmptyString, f));
      [exact (G EmptyString f Hf)|].
    unfold __init__. rewrite Hs, (split_no_sep _ _ Hf). reflexivity.
Qed.

Lemma X4_source_path_cut_at_last_slash_witness :
  source_parts (__init__ accepts_all "ftp_to_gcs" "ftp_default"
                  ("a/b" ++ "/" ++ "c*.txt")
                  "bucket" None default_gcp_conn_id false None)
  = Ok ("a/b", "c*.txt")
  /\ source_parts (__init__ accepts_all "ftp_to_gcs" "ftp_default" ("a/b" ++ "/")
                     "bucket" None default_gcp_conn_id false None)
     = Ok ("a/b", EmptyString)
  /\ source_parts (__init__ accepts_all "ftp_to_gcs" "ftp_default" ("/" ++ "c*.txt")
                     "bucket" None default_gcp_conn_id false None)
     = source_parts (__init__ accepts_all "ftp_to_gcs" "ftp_default" "c*.txt"
                       "bucket" None default_gcp_conn_id false None).
Proof.
  apply (X4_source_path_cut_at_last_slash accepts_all "ftp_to_gcs" "ftp_default"
           "bucket" None default_gcp_conn_id false None "a/b" "c*.txt").
  - reflexivity.
  - reflexivity.
Defined.

(** X5.  Two different listed names never get the same destination key. *)
Theorem X5_file_dest_injective (self : FTPToGCSOperator) (a b : string) :
  file_dest self a = file_dest self b -> a = b.
Proof. exact (file_dest_inj self a b). Qed.

Lemma X5_file_dest_injective_witness :
  file_dest (sample_operator true) "a.csv" = file_dest (sample_operator true) "a.csv"
  /\ "a.csv" = "a.csv".
Proof.
  split; [reflexivity|].
  apply (X5_file_dest_injective (sample_operator true) "a.csv" "a.csv").
  reflexivity.
Defined.

(** * Further properties of [execute] *)

(** X6.  The names handed to [ftp.delete] are a leading part of the listing,
    in its order, when [move_object] is set, and the whole listing when
    [execute] returns; when [move_object] is not set nothing is ever
    deleted. *)
Theorem X6_deleted_names (w : World) (self : FTPToGCSOperator) :
  match outcome w self with
  | Ok _ =>
      deleted_names (trace w self)
      = if move_object self then listing w (ftp_file self) else []
  | Raise _ =>
      exists k,
        deleted_names (trace w self)
        = if move_object self then firstn k (listing w (ftp_file self)) else []
  end.
Proof. exact (path_deleted w self _ _ (run_shape w self)). Qed.

(** X7.  A file is deleted only after it has been copied: every call of
    [ftp.delete] for a name comes, in a run with [move_object] set, right
    after the retrieve of that name and the close of its write stream have
    both returned (with only the log line in between). *)
Theorem X7_delete_follows_completed_transfer
    (w : World) (self : FTPToGCSOperator) (f : string) (rd : option raised) :
  In (FtpDelete f, rd) (trace w self) ->
  move_object self = true
  /\ exists pre post,
       trace w self = (pre ++ delete_tail self f rd ++ post)%list.
Proof.
  intros Hin. exact (path_delete_tail w self _ _ f rd (run_shape w self) Hin).
Qed.

Lemma X7_delete_follows_completed_transfer_witness :
  move_object (sample_operator true) = true
  /\ exists pre post,
       trace (world_of nothing_fails ["a.csv"; "b.csv"]) (sample_operator true)
       = (pre ++ delete_tail (sample_operator true) "b.csv" None ++ post)%list.
Proof.
  apply (X7_delete_follows_completed_transfer
           (world_of nothing_fails ["a.csv"; "b.csv"]) (sample_operator true)
           "b.csv" None).
  find_event.
Defined.

(** X8.  No failure is swallowed: [execute] returns exactly when every call
    it made to a collaborator returned. *)
Theorem X8_returns_iff_every_call_returned (w : World) (self : FTPToGCSOperator) :
  outcome w self = Ok tt <-> forallb returned (trace w self) = true.
Proof. exact (path_returns_iff w self _ _ (run_shape w self)). Qed.

(** X9.  When the lookup of the connection, the creation of the storage
    client or [get_bucket] raises, that exception leaves [execute] as it is,
    whether it is an [Exception] or not, not wrapped in an
    [AirflowException]; the failed call is the last one and the FTP server
    has not been contacted. *)
Theorem X9_setup_failure_is_not_wrapped
    (w : World) (self : FTPToGCSOperator) (c : call) (x : raised) :
  setup_call c = true ->
  In (c, Some x) (trace w self) ->
  outcome w self = Raise (thrown x)
  /\ (exists before, trace w self = (before ++ [(c, Some x)])%list)
  /\ existsb (fun e => ftp_call (fst e)) (trace w self) = false.
Proof.
  intros Hc Hin.
  exact (path_failed_setup w self _ _ c x (run_shape w self) Hc Hin).
Qed.

Lemma X9_setup_failure_is_not_wrapped_witness :
  outcome (world_of (bucket_fails "404") ["a.csv"]) (sample_operator true)
  = Raise (Foreign "404")
  /\ (exists before,
        trace (world_of (bucket_fails "404") ["a.csv"]) (sample_operator true)
        = (before ++ [(GetBucket "bucket", Some (Exc "404"))])%list)
  /\ existsb (fun e => ftp_call (fst e))
       (trace (world_of (bucket_fails "404") ["a.csv"]) (sample_operator true))
     = false.
Proof.
  apply (X9_setup_failure_is_not_wrapped
           (world_of (bucket_fails "404") ["a.csv"]) (sample_operator true)
           (GetBucket "bucket") (Exc "404")).
  - reflexivity.
  - find_event.
Defined.

(** X10.  An exception of [ftp.quit()] is not caught: whenever the quit
    raises, on the last line or inside a handler, it is the last call and its
    exception is what leaves [execute], in place of the result or of the
    [AirflowException] of the stage that failed. *)
Theorem X10_quit_failure_propagates
    (w : World) (self : FTPToGCSOperator) (x : raised) :
  In (FtpQuit, Some x) (trace w self) ->
  outcome w self = Raise (thrown x)
  /\ exists before, trace w self = (before ++ [(FtpQuit, Some x)])%list.
Proof.
  intros Hin. exact (path_failed_quit w self _ _ x (run_shape w self) Hin).
Qed.

Lemma X10_quit_failure_propagates_witness :
  outcome (world_of (quit_fails "421") ["a.csv"]) (sample_operator true)
  = Raise (Foreign "421")
  /\ exists before,
       trace (world_of (quit_fails "421") ["a.csv"]) (sample_operator true)
       = (before ++ [(FtpQuit, Some (Exc "421"))])%list.
Proof.
  apply (X10_quit_failure_propagates
           (world_of (quit_fails "421") ["a.csv"]) (sample_operator true)
           (Exc "421")).
  find_event.
Defined.

(** X11.  Every write stream that was opened is closed, on every path, also
    when the retrieve raises: the keys of the opened streams and the keys of
    the closed streams are the same list, in the same order. *)
Theorem X11_opened_streams_are_closed (w : World) (self : FTPToGCSOperator) :
  opened_streams (trace w self) = closed_streams (trace w self).
Proof. exact (path_streams w self _ _ (run_shape w self)). Qed.

(** X12.  When creating the blob of a listed file, opening its write stream
    or closing it raises an [Exception], the run stops there: the next and
    last call is the [quit], and once that has returned the
    [AirflowException] with the message ["Error reading file f: cause "]
    leaves [execute], [cause] being the exception of that call, also when
    the retrieve had raised before the close. *)
Theorem X12_storage_failure_aborts_the_run
    (w : World) (self : FTPToGCSOperator) (c : call) (f cause : string) :
  c = BucketBlob (file_dest self f) \/ c = BlobOpen (file_dest self f)
  \/ c = StreamClose (file_dest self f) ->
  In (c, Some (Exc cause)) (trace w self) ->
  exists before rq,
    trace w self = (before ++ [(c, Some (Exc cause)); (FtpQuit, rq)])%list
    /\ (rq = None ->
        outcome w self
        = Raise (AirflowException
                   ("Error reading file " ++ f ++ ": " ++ cause ++ " "))).
Proof.
  intros Hc Hin.
  exact (path_failed_storage w self _ _ c f cause (run_shape w self) Hc Hin).
Qed.

Lemma X12_storage_failure_aborts_the_run_witness :
  exists before rq,
    trace (world_of (open_fails "in/b.csv" "403") ["a.csv"; "b.csv"; "c.csv"])
      (sample_operator true)
    = (before ++ [(BlobOpen (file_dest (sample_operator true) "b.csv"),
                   Some (Exc "403"));
                  (FtpQuit, rq)])%list
    /\ (rq = None ->
        outcome (world_of (open_fails "in/b.csv" "403") ["a.csv"; "b.csv"; "c.csv"])
          (sample_operator true)
        = Raise (AirflowException
                   ("Error reading file " ++ "b.csv" ++ ": " ++ "403" ++ " "))).
Proof.
  apply (X12_storage_failure_aborts_the_run
           (world_of (open_fails "in/b.csv" "403") ["a.csv"; "b.csv"; "c.csv"])
           (sample_operator true)
           (BlobOpen (file_dest (sample_operator true) "b.csv")) "b.csv" "403").
  - right. left. reflexivity.
  - find_event.
Defined.

(** X13.  No file is touched before the session stands: a blob is created, a
    write stream opened or closed, a file retrieved or deleted only in a run
    whose history starts with the connection lookup, the storage client, the
    bucket, the connect, the login, the change of directory and the listing,
    all of them having returned, in this order. *)
Theorem X13_transfer_needs_session
    (w : World) (self : FTPToGCSOperator) (c : call) (rc : option raised) :
  transfer_call c = true ->
  In (c, rc) (trace w self) ->
  exists rest,
    trace w self
    = (session_events self (connection_of w (ftp_conn_id self))
         ++ (FtpNlst (ftp_file self), None) :: rest)%list.
Proof.
  intros Hc Hin.
  exact (path_transfer_needs_session w self _ _ c rc (run_shape w self) Hc Hin).
Qed.

Lemma X13_transfer_needs_session_witness :
  exists rest,
    trace (world_of (retr_fails "RETR a.csv" "550") ["a.csv"]) (sample_operator false)
    = (session_events (sample_operator false) sample_connection
         ++ (FtpNlst "*.csv", None) :: rest)%list.
Proof.
  apply (X13_transfer_needs_session
           (world_of (retr_fails "RETR a.csv" "550") ["a.csv"])
           (sample_operator false) (FtpRetrbinary "RETR a.csv") (Some (Exc "550"))).
  - reflexivity.
  - find_event.
Defined.
